(** * Session and content-delivery layer of the logical-reasoning practice app

    A shallow embedding of [src/services/api.ts] (the [ApiService] class:
    token store, request gateway, fallback questions, session facade) and
    of the question handlers of [App.tsx], followed by the properties of
    the specification that concern them; then of [register] and [login],
    of the other handlers of [App.tsx], of the authentication form
    ([AuthScreen.tsx]) and of the review screen, with further properties
    read off the code.

    Asynchronous methods are run to completion one after the other: an
    [await] is a sequencing point and a rejected promise is a thrown value.
    The world the service lives in (its [token] field, the persistent
    entry ['auth_token'], the requests it has sent) is threaded through a
    state-and-exception monad; what the network and the storage answer is
    given by a [Host]. *)

From Stdlib Require Import String Ascii List ZArith Bool Arith Lia DecimalString.
Import ListNotations.
Local Open Scope string_scope.
#[local] Set Warnings "-register-all".

(** ** JavaScript values *)

(** The values the service handles: parsed JSON bodies, object literals of
    the program, and members inherited from [Object.prototype] ([Native]).
    Numbers are the integers: no number of the program text is fractional,
    and the only test made on a number is whether it is zero. *)
Inductive Val : Type :=
| Undefined
| Null
| Bool (b : bool)
| Num (n : Z)
| Str (s : string)
| Arr (items : list Val)
| Obj (fields : list (string * Val))
| Native (name : string).

(** [!!v] *)
Definition truthy (v : Val) : bool :=
  match v with
  | Undefined | Null => false
  | Bool b => b
  | Num n => negb (n =? 0)%Z
  | Str s => negb (s =? "")
  | Arr _ | Obj _ | Native _ => true
  end.

(** [a || b] *)
Definition or_else (a b : Val) : Val := if truthy a then a else b.

(** Own properties of an object literal, first match. *)
Fixpoint own_property (fields : list (string * Val)) (key : string) : option Val :=
  match fields with
  | [] => None
  | (k, v) :: rest => if k =? key then Some v else own_property rest key
  end.

(** The property names every object inherits from [Object.prototype]
    (ECMAScript 20.1.3 and Annex B.2.2). Each names a function, except
    [__proto__], which names the prototype object: all are truthy. *)
Definition Object_prototype : list string :=
  [ "constructor"; "hasOwnProperty"; "isPrototypeOf"; "propertyIsEnumerable";
    "toLocaleString"; "toString"; "valueOf"; "__proto__";
    "__defineGetter__"; "__defineSetter__"; "__lookupGetter__"; "__lookupSetter__" ].

Definition inherited (key : string) : bool :=
  existsb (String.eqb key) Object_prototype.

(** [o[key]] on an object literal [o]: own property first, then the
    prototype chain, else [undefined]. *)
Definition get_property (fields : list (string * Val)) (key : string) : Val :=
  match own_property fields key with
  | Some v => v
  | None => if inherited key then Native ("Object.prototype." ++ key) else Undefined
  end.

(** [s.includes(sub)] *)
Fixpoint includes (s sub : string) : bool :=
  if String.prefix sub s then true
  else match s with
       | EmptyString => false
       | String _ rest => includes rest sub
       end.

(** Template-literal rendering of a non-negative integer. *)
Definition decimal (n : nat) : string := NilEmpty.string_of_uint (Nat.to_uint n).

(** ** Thrown values and results *)

(** What a [throw] or a rejected promise carries: an [Error] instance with
    its message, or any other value. *)
Inductive Thrown : Type :=
| Error (message : string)
| Raw (v : Val).

Inductive Result (A : Type) : Type :=
| Ok (a : A)
| Throw (e : Thrown).
Arguments Ok {A} a.
Arguments Throw {A} e.

(** [error instanceof Error && error.message.includes(sub)] *)
Definition is_error_with (e : Thrown) (sub : string) : bool :=
  match e with
  | Error message => includes message sub
  | Raw _ => false
  end.

(** ** The world of the service *)

(** An outbound call as [fetch] sees it. *)
Record Request : Type := mkRequest {
  url : string;
  method : string;
  headers : list (string * string);
  body : option Val
}.

(** The [options] argument of [request]; the callers set only these two. *)
Record RequestInit : Type := mkInit {
  init_method : option string;
  init_body : option Val
}.

Definition GET : RequestInit := mkInit None None.
Definition POST (b : option Val) : RequestInit := mkInit (Some "POST") b.
Definition PUT (b : option Val) : RequestInit := mkInit (Some "PUT") b.

(** What one [fetch] comes to: no response at all, or a response with its
    status and what [response.json()] gives. *)
Inductive FetchOutcome : Type :=
| Unreachable (e : Thrown)
| Response (status : nat) (json : Result Val).

(** [response.ok] *)
Definition ok (status : nat) : bool := ((200 <=? status) && (status <=? 299))%nat.

Record World : Type := mkWorld {
  token : option string;       (* this.token *)
  persisted : option string;   (* the AsyncStorage entry 'auth_token' *)
  sent : list Request;         (* requests handed to fetch, latest first *)
  storage_ops : nat            (* AsyncStorage calls made so far *)
}.

(** The environment: the build flavour, the outcome of a [fetch] given
    every request sent so far (the current one first), and whether the
    n-th storage call fails (and with what). A storage call that fails
    leaves the entry as it was. *)
Record Host : Type := mkHost {
  DEV : bool;
  fetch_outcome : list Request -> FetchOutcome;
  storage_fault : nat -> option Thrown
}.

(** ** The monad of asynchronous methods *)

Definition M (A : Type) : Type := World -> Result A * World.

Definition ret {A} (a : A) : M A := fun w => (Ok a, w).

Definition throw {A} (e : Thrown) : M A := fun w => (Throw e, w).

Definition bind {A B} (m : M A) (k : A -> M B) : M B :=
  fun w =>
    match m w with
    | (Ok a, w') => k a w'
    | (Throw e, w') => (Throw e, w')
    end.

(** [try { m } catch (error) { handler error }] *)
Definition try_catch {A} (m : M A) (handler : Thrown -> M A) : M A :=
  fun w =>
    match m w with
    | (Ok a, w') => (Ok a, w')
    | (Throw e, w') => handler e w'
    end.

Definition lift {A} (r : Result A) : M A := fun w => (r, w).

Declare Scope async_scope.
Delimit Scope async_scope with async.
Notation "x <- m ;; k" := (bind m (fun x => k))
  (at level 100, m at next level, right associativity) : async_scope.
Notation "m ;; k" := (bind m (fun _ => k))
  (at level 100, right associativity) : async_scope.
Local Open Scope async_scope.

Definition get_token : M (option string) := fun w => (Ok (token w), w).

Definition set_token (t : option string) : M unit :=
  fun w => (Ok tt, mkWorld t (persisted w) (sent w) (storage_ops w)).

(** [!!this.token]: a token that is [null] or the empty string is falsy. *)
Definition truthy_token (t : option string) : bool :=
  match t with
  | Some (String _ _) => true
  | _ => false
  end.

(** ** Fallback sample questions (api.ts, lines 267-336) *)

(** The shape of a [Question] object literal. *)
Definition question (id type text : string) (options : list string)
    (correct_answer explanation : string) : Val :=
  Obj [ ("id", Str id); ("type", Str type); ("question", Str text);
        ("options", Arr (map Str options));
        ("correct_answer", Str correct_answer); ("explanation", Str explanation) ].

Definition sampleQuestions : list (string * Val) :=
  [ ("strengthen",
     question "sample-strengthen-1" "strengthen"
       "A local restaurant owner claims that installing outdoor heaters will significantly increase winter revenue. She argues that customers will be more likely to dine outside during cold months if the patio is heated, thus expanding seating capacity when indoor dining is limited.

Which of the following, if true, most strengthens the restaurant owner's argument?"
       [ "A) The cost of outdoor heaters can be recovered within six months of installation";
         "B) Other restaurants in the area have reported increased winter sales after installing outdoor heaters";
         "C) Many customers prefer dining outdoors regardless of temperature";
         "D) The restaurant currently has a waiting list during peak dinner hours in winter";
         "E) Outdoor heaters consume significant amounts of energy" ]
       "B"
       "Option B strengthens the argument by providing concrete evidence that outdoor heaters have actually resulted in increased winter sales for similar restaurants.");
    ("weaken",
     question "sample-weaken-1" "weaken"
       "City planners argue that building a new subway line will reduce traffic congestion downtown. They claim that many commuters will switch from driving to taking the subway, resulting in fewer cars on the roads during rush hour.

Which of the following, if true, most weakens the planners' argument?"
       [ "A) The subway line will increase property values along its route";
         "B) The construction of the subway will temporarily increase traffic congestion";
         "C) Most downtown commuters live in areas not served by the new subway line";
         "D) Subway tickets will cost less than parking fees downtown";
         "E) The subway will run every 10 minutes during rush hour" ]
       "C"
       "Option C weakens the argument because if most commuters live in areas not served by the subway, they cannot switch to using it, undermining the predicted reduction in traffic.");
    ("assumption",
     question "sample-assumption-1" "assumption"
       "A company CEO argues that implementing a four-day work week will increase employee productivity. She reasons that well-rested employees are more focused and efficient, so the company will accomplish the same amount of work in fewer days.

The CEO's argument depends on which of the following assumptions?"
       [ "A) Employees currently work inefficiently due to fatigue";
         "B) The company does not offer four-day work weeks to competitors";
         "C) Employee salaries will remain the same despite working fewer days";
         "D) The work that needs to be completed can be done in four days instead of five";
         "E) Employees will not seek additional employment on their extra day off" ]
       "D"
       "The argument assumes that the total amount of work can actually be completed in four days. Without this assumption, the conclusion cannot follow.");
    ("flaw",
     question "sample-flaw-1" "flaw"
       "Dr. Martinez concludes that playing classical music improves mathematical ability in children. Her evidence is a study showing that students who took piano lessons for six months scored higher on math tests than those who did not take lessons.

The reasoning is most vulnerable to criticism because it:"
       [ "A) Relies on a study with too small a sample size";
         "B) Fails to consider that piano lessons and listening to classical music are different activities";
         "C) Ignores the possibility that students who choose piano lessons may already have stronger analytical skills";
         "D) Does not account for the students socioeconomic backgrounds";
         "E) Assumes that correlation between piano lessons and math scores indicates causation" ]
       "E"
       "The main flaw is assuming that correlation between piano lessons and math scores indicates causation. Just because students who take piano lessons score higher doesn't mean the lessons caused the improvement.") ].

(** [sampleQuestions[type] || sampleQuestions.strengthen] *)
Definition getSampleQuestion (type : string) : Val :=
  or_else (get_property sampleQuestions type) (get_property sampleQuestions "strengthen").

(** The four categories of [GenerateQuestionRequest.type]. *)
Inductive Category : Type := strengthen | weaken | assumption | flaw.

Definition category_name (c : Category) : string :=
  match c with
  | strengthen => "strengthen"
  | weaken => "weaken"
  | assumption => "assumption"
  | flaw => "flaw"
  end.

(** Request payloads, as the values handed to [JSON.stringify]; a field
    left [undefined] is absent from the text (so is a function). The
    category is the string it is at run time: [App.tsx] passes
    [questionType as any]. *)
Record GenerateQuestionRequest : Type := mkGenerate {
  g_type : string;
  g_difficulty : option Z
}.

Record SubmitAnswerRequest : Type := mkSubmit {
  questionId : Val;
  userAnswer : string;
  responseTime : option Z
}.

Definition optional (key : string) (v : option Z) : list (string * Val) :=
  match v with
  | Some n => [(key, Num n)]
  | None => []
  end.

Definition generate_payload (r : GenerateQuestionRequest) : Val :=
  Obj (("type", Str (g_type r)) :: optional "difficulty" (g_difficulty r)).

Definition defined (key : string) (v : Val) : list (string * Val) :=
  match v with
  | Undefined | Native _ => []
  | _ => [(key, v)]
  end.

Definition submit_payload (r : SubmitAnswerRequest) : Val :=
  Obj (defined "questionId" (questionId r)
       ++ ("userAnswer", Str (userAnswer r)) :: optional "responseTime" (responseTime r)).

(** The record [getUserStats] falls back to. *)
Definition zero_stats : Val :=
  Obj [ ("questionsAnswered", Num 0); ("accuracy", Num 0); ("currentStreak", Num 0);
        ("longestStreak", Num 0);
        ("accuracyByType",
         Obj [ ("strengthen", Num 0); ("weaken", Num 0); ("assumption", Num 0); ("flaw", Num 0) ]);
        ("correctAnswers", Num 0) ].

Section Service.

Variable host : Host.

(** *** AsyncStorage, restricted to the key ['auth_token'] *)

Definition storage_call {A} (result : option string -> A)
    (entry : option string -> option string) : M A :=
  fun w =>
    match storage_fault host (storage_ops w) with
    | Some e => (Throw e, mkWorld (token w) (persisted w) (sent w) (S (storage_ops w)))
    | None => (Ok (result (persisted w)),
               mkWorld (token w) (entry (persisted w)) (sent w) (S (storage_ops w)))
    end.

Definition getItem : M (option string) := storage_call (fun v => v) (fun v => v).
Definition setItem (value : string) : M unit := storage_call (fun _ => tt) (fun _ => Some value).
Definition removeItem : M unit := storage_call (fun _ => tt) (fun _ => None).

(** *** Token store (api.ts, lines 58-84) *)

Definition loadToken : M unit :=
  try_catch (v <- getItem ;; set_token v) (fun _ => ret tt).

Definition saveToken (t : string) : M unit :=
  try_catch (set_token (Some t) ;; setItem t) (fun _ => ret tt).

Definition removeToken : M unit :=
  try_catch (set_token None ;; removeItem) (fun _ => ret tt).

(** The field initialiser and the constructor: [token = null], then
    [loadToken()]. *)
Definition construct (stored : option string) : World :=
  snd (loadToken (mkWorld None stored [] 0)).

Definition getToken : M (option string) := get_token.

Definition isAuthenticated : M bool :=
  t <- get_token ;; ret (truthy_token t).

(** *** Request gateway (api.ts, lines 116-145) *)

Definition API_BASE_URL : string :=
  if DEV host then "http://127.0.0.1:3000/api" else "https://your-production-api.com/api".

Definition fetch (req : Request) : M (nat * Result Val) :=
  fun w =>
    let log := req :: sent w in
    let w' := mkWorld (token w) (persisted w) log (storage_ops w) in
    match fetch_outcome host log with
    | Unreachable e => (Throw e, w')
    | Response status json => (Ok (status, json), w')
    end.

Definition authorization (t : option string) : list (string * string) :=
  match t with
  | Some (String c s) => [("Authorization", "Bearer " ++ String c s)]
  | _ => []
  end.

Definition config (endpoint : string) (t : option string) (options : RequestInit) : Request :=
  mkRequest (API_BASE_URL ++ endpoint)
            (match init_method options with Some m => m | None => "GET" end)
            (("Content-Type", "application/json") :: authorization t)
            (init_body options).

Definition request (endpoint : string) (options : RequestInit) : M Val :=
  t <- get_token ;;
  try_catch
    (response <- fetch (config endpoint t options) ;;
     let (status, json) := response in
     if negb (ok status) then
       if (status =? 401)%nat then
         (removeToken ;; throw (Error "Authentication failed"))
       else throw (Error ("HTTP error! status: " ++ decimal status))
     else lift json)
    (fun error => throw error).

(** *** Session facade (api.ts, lines 89-104 and 168-264) *)

Definition logout : M unit :=
  t <- get_token ;;
  (if truthy_token t then
     try_catch (request "/auth/logout" (POST None) ;; ret tt) (fun _ => ret tt)
   else ret tt) ;;
  removeToken.

Definition getProfile : M Val :=
  try_catch (request "/auth/profile" GET)
    (fun error =>
       (if is_error_with error "401" then removeToken else ret tt) ;;
       throw error).

Definition checkAuthStatus : M bool :=
  try_catch
    (t <- get_token ;;
     if negb (truthy_token t) then ret false
     else (getProfile ;; ret true))
    (fun _ => removeToken ;; ret false).

Definition updateProfile (username email : string) : M Val :=
  request "/auth/profile"
    (PUT (Some (Obj [("username", Str username); ("email", Str email)]))).

Definition changePassword (currentPassword newPassword : string) : M Val :=
  request "/auth/password"
    (PUT (Some (Obj [("currentPassword", Str currentPassword);
                     ("newPassword", Str newPassword)]))).

Definition generateQuestion (r : GenerateQuestionRequest) : M Val :=
  try_catch (request "/questions/generate" (POST (Some (generate_payload r))))
    (fun error =>
       authenticated <- isAuthenticated ;;
       if negb authenticated then ret (getSampleQuestion (g_type r))
       else throw error).

Definition submitAnswer (r : SubmitAnswerRequest) : M Val :=
  request "/questions/answer" (POST (Some (submit_payload r))).

Definition getUserStats : M Val :=
  try_catch (request "/questions/stats" GET) (fun _ => ret zero_stats).

Definition getMissedQuestions : M Val :=
  try_catch (request "/questions/missed" GET) (fun _ => ret (Arr [])).

End Service.

(** ** The question handlers of App.tsx *)

(** [v.key]. Reading a property of [null] or [undefined] throws a
    TypeError (its message is the engine's); on any other value that is not
    an object literal the keys this program reads are no built-in members,
    so only the prototype chain answers. *)
Definition member (v : Val) (key : string) : Result Val :=
  match v with
  | Undefined | Null => Throw (Error ("Cannot read property '" ++ key ++ "'"))
  | Obj fields => Ok (get_property fields key)
  | _ => Ok (get_property [] key)
  end.

(** [v !== 0] *)
Definition is_not_zero (v : Val) : bool :=
  match v with
  | Num 0 => false
  | _ => true
  end.

(** [!!s] for a [string | null] *)
Definition truthy_string (s : option string) : bool :=
  match s with
  | Some (String _ _) => true
  | _ => false
  end.

(** [Math.round(d / 1000)] for an integer [d]: halves round upwards. *)
Definition round_seconds (d : Z) : Z := ((d + 500) / 1000)%Z.

Inductive Screen : Type := loading_screen | auth | home | question_screen | review.

(** The component state of [App] (its [useState] cells), the alerts it has
    raised (latest first) and the grading results whose delayed alert
    ([setTimeout], 500 ms) is pending. *)
Record App : Type := mkApp {
  currentScreen : Screen;
  currentUser : Val;
  currentQuestion : Val;
  selectedAnswer : option string;
  showExplanation : bool;
  loading : bool;
  questionStartTime : Z;
  stats : Val;
  alerts : list (string * string);
  scheduled : list Val
}.

Definition setCurrentScreen (s : Screen) (a : App) : App :=
  mkApp s (currentUser a) (currentQuestion a) (selectedAnswer a) (showExplanation a)
        (loading a) (questionStartTime a) (stats a) (alerts a) (scheduled a).

Definition setCurrentQuestion (q : Val) (a : App) : App :=
  mkApp (currentScreen a) (currentUser a) q (selectedAnswer a) (showExplanation a)
        (loading a) (questionStartTime a) (stats a) (alerts a) (scheduled a).

Definition setSelectedAnswer (s : option string) (a : App) : App :=
  mkApp (currentScreen a) (currentUser a) (currentQuestion a) s (showExplanation a)
        (loading a) (questionStartTime a) (stats a) (alerts a) (scheduled a).

Definition setShowExplanation (b : bool) (a : App) : App :=
  mkApp (currentScreen a) (currentUser a) (currentQuestion a) (selectedAnswer a) b
        (loading a) (questionStartTime a) (stats a) (alerts a) (scheduled a).

Definition setLoading (b : bool) (a : App) : App :=
  mkApp (currentScreen a) (currentUser a) (currentQuestion a) (selectedAnswer a)
        (showExplanation a) b (questionStartTime a) (stats a) (alerts a) (scheduled a).

Definition setQuestionStartTime (t : Z) (a : App) : App :=
  mkApp (currentScreen a) (currentUser a) (currentQuestion a) (selectedAnswer a)
        (showExplanation a) (loading a) t (stats a) (alerts a) (scheduled a).

Definition setStats (s : Val) (a : App) : App :=
  mkApp (currentScreen a) (currentUser a) (currentQuestion a) (selectedAnswer a)
        (showExplanation a) (loading a) (questionStartTime a) s (alerts a) (scheduled a).

Definition Alert_alert (title message : string) (a : App) : App :=
  mkApp (currentScreen a) (currentUser a) (currentQuestion a) (selectedAnswer a)
        (showExplanation a) (loading a) (questionStartTime a) (stats a)
        ((title, message) :: alerts a) (scheduled a).

Definition setTimeout_alert (result : Val) (a : App) : App :=
  mkApp (currentScreen a) (currentUser a) (currentQuestion a) (selectedAnswer a)
        (showExplanation a) (loading a) (questionStartTime a) (stats a)
        (alerts a) (result :: scheduled a).

Section Handlers.

Variable host : Host.

(** The object [loadUserStats] stores: each field of the reply, or its
    default when the field is falsy. *)
Definition stats_of (userStats : Val) : M Val :=
  questionsAnswered <- lift (member userStats "questionsAnswered") ;;
  accuracy <- lift (member userStats "accuracy") ;;
  currentStreak <- lift (member userStats "currentStreak") ;;
  longestStreak <- lift (member userStats "longestStreak") ;;
  accuracyByType <- lift (member userStats "accuracyByType") ;;
  correctAnswers <- lift (member userStats "correctAnswers") ;;
  ret (Obj [ ("questionsAnswered", or_else questionsAnswered (Num 0));
             ("accuracy", or_else accuracy (Num 0));
             ("currentStreak", or_else currentStreak (Num 0));
             ("longestStreak", or_else longestStreak (Num 0));
             ("accuracyByType",
              or_else accuracyByType
                (Obj [ ("strengthen", Num 0); ("weaken", Num 0);
                       ("assumption", Num 0); ("flaw", Num 0) ]));
             ("correctAnswers", or_else correctAnswers (Num 0)) ]).

(** App.tsx, lines 109-128 *)
Definition loadUserStats (a : App) (w : World) : App * World :=
  match (userStats <- getUserStats host ;; stats_of userStats) w with
  | (Ok s, w') => (setStats s a, w')
  | (Throw _, w') => (a, w')
  end.

(** App.tsx, lines 130-146. [currentQuestion] afterwards is the value
    handed to [setCurrentQuestion]. That is the state React renders next
    for every value but a function, which React would run as an updater
    of the previous state; the only functions that can get here are the
    members a sample lookup inherits from [Object.prototype], and what the
    screen holds after such a call is not part of this model. *)
Definition navigateToQuestion (now : Z) (questionType : string) (a : App) (w : World)
    : App * World :=
  let a1 := setQuestionStartTime now
              (setShowExplanation false
                 (setSelectedAnswer None
                    (setCurrentScreen question_screen (setLoading true a)))) in
  match generateQuestion host (mkGenerate questionType None) w with
  | (Ok q, w') => (setLoading false (setCurrentQuestion q a1), w')
  | (Throw _, w') =>
      (setLoading false
         (setCurrentScreen home
            (Alert_alert "Error" "Failed to load question. Please try again." a1)), w')
  end.

(** App.tsx, lines 148-156 *)
Definition navigateToHome (a : App) (w : World) : App * World :=
  let a1 := setShowExplanation false
              (setSelectedAnswer None
                 (setCurrentQuestion Null (setCurrentScreen home a))) in
  if truthy (currentUser a)
     && match member (currentUser a) "id" with
        | Ok id => is_not_zero id
        | Throw _ => false
        end
  then loadUserStats a1 w
  else (a1, w).

(** App.tsx, lines 162-165 *)
Definition handleAnswerSelect (answer : string) (a : App) : App :=
  if showExplanation a then a
  else setSelectedAnswer (Some answer) a.

(** The call in the [try] block of [handleSubmit]: the response time in
    seconds, then [submitAnswer] with the question's [id]. *)
Definition submit_call (now : Z) (a : App) (answer : string) : M Val :=
  let seconds := round_seconds (now - questionStartTime a) in
  id <- lift (member (currentQuestion a) "id") ;;
  submitAnswer host (mkSubmit id answer (Some seconds)).

(** App.tsx, lines 167-204 *)
Definition handleSubmit (now : Z) (a : App) (w : World) : App * World :=
  match selectedAnswer a with
  | Some (String c s) =>
      if negb (truthy (currentQuestion a)) then
        (Alert_alert "Please select an answer"
           "Choose one of the options before submitting." a, w)
      else
        let a1 := setLoading true a in
        match submit_call now a (String c s) w with
        | (Ok result, w') =>
            (setLoading false (setTimeout_alert result (setShowExplanation true a1)), w')
        | (Throw _, w') =>
            (setLoading false
               (Alert_alert "Error" "Failed to submit answer. Please try again." a1), w')
        end
  | _ =>
      (Alert_alert "Please select an answer"
         "Choose one of the options before submitting." a, w)
  end.

(** What the user can do on the question screen. *)
Inductive Event : Type :=
| Select (answer : string)
| Submit (now : Z)
| Open (now : Z) (questionType : string)
| Back.

Definition handle (e : Event) (a : App) (w : World) : App * World :=
  match e with
  | Select answer => (handleAnswerSelect answer a, w)
  | Submit now => handleSubmit now a w
  | Open now questionType => navigateToQuestion now questionType a w
  | Back => navigateToHome a w
  end.

(** A session on the question screen: the handlers run one after the other. *)
Fixpoint session (events : list Event) (a : App) (w : World) : App * World :=
  match events with
  | [] => (a, w)
  | e :: rest => let (a', w') := handle e a w in session rest a' w'
  end.

End Handlers.

(** ** Vocabulary of the properties *)

(** The request carries an [Authorization] header. *)
Definition authorized (r : Request) : bool :=
  existsb (fun h => fst h =? "Authorization") (headers r).

(** The world once [fetch] has been handed [req]. *)
Definition after_fetch (req : Request) (w : World) : World :=
  mkWorld (token w) (persisted w) (req :: sent w) (storage_ops w).

(** The credential: the cached token and the persisted entry. *)
Definition credential (w : World) : option string * option string :=
  (token w, persisted w).

(** Hosts and worlds to run the service on. *)
Definition offline : Host :=
  mkHost true (fun _ => Unreachable (Error "Network request failed")) (fun _ => None).

Definition replying (status : nat) (json : Result Val) : Host :=
  mkHost true (fun _ => Response status json) (fun _ => None).

Definition broken_storage (h : Host) : Host :=
  mkHost (DEV h) (fetch_outcome h) (fun _ => Some (Error "Storage is full")).

Definition guest : World := mkWorld None None [] 0.

Definition signed_in (t : string) : World := mkWorld (Some t) (Some t) [] 0.

(** The question screen showing the [weaken] sample to a guest. *)
Definition sample_view (selection : option string) (explained : bool) : App :=
  mkApp question_screen Null (getSampleQuestion "weaken") selection explained false 0 Null [] [].

(** * Further code *)

(** ** Registration and login (api.ts, lines 148-166) *)

Section Accounts.

Variable host : Host.

(** [await this.saveToken(response.token); return response]. The type
    [AuthResponse] declares [token] a string, and a [World] holds a string
    token or none: a reply whose [token] is anything else is outside what
    this model can hold, and the run is [None]. Reading [token] off a reply
    that is [null] throws. *)
Definition save_reply_token (response : Val) (w : World) : option (Result Val * World) :=
  match member response "token" with
  | Throw e => Some (Throw e, w)
  | Ok (Str t) => Some (Ok response, snd (saveToken host t w))
  | Ok _ => None
  end.

Definition register (username email password : string) (w : World)
    : option (Result Val * World) :=
  match request host "/auth/register"
          (POST (Some (Obj [ ("username", Str username); ("email", Str email);
                             ("password", Str password) ]))) w with
  | (Ok response, w') => save_reply_token response w'
  | (Throw e, w') => Some (Throw e, w')
  end.

Definition login (email password : string) (w : World) : option (Result Val * World) :=
  match request host "/auth/login"
          (POST (Some (Obj [ ("email", Str email); ("password", Str password) ]))) w with
  | (Ok response, w') => save_reply_token response w'
  | (Throw e, w') => Some (Throw e, w')
  end.

End Accounts.

(** A reply of the shape [AuthResponse] declares, carrying the token [t]. *)
Definition account_reply (t : string) : Val :=
  Obj [ ("message", Str "Login successful");
        ("user", Obj [ ("id", Num 7); ("username", Str "ada");
                       ("email", Str "ada@example.org");
                       ("subscription_type", Str "free") ]);
        ("token", Str t) ].

(** ** The other handlers of App.tsx *)

Definition setCurrentUser (u : Val) (a : App) : App :=
  mkApp (currentScreen a) u (currentQuestion a) (selectedAnswer a) (showExplanation a)
        (loading a) (questionStartTime a) (stats a) (alerts a) (scheduled a).

(** The initial component state (App.tsx, lines 20-39). *)
Definition initial_App : App :=
  mkApp loading_screen Null Null None false false 0 zero_stats [] [].

Section Shell.

Variable host : Host.

(** App.tsx, lines 51-67: the check run when the component mounts. The
    statistics are loaded by a call that is not awaited and catches its own
    errors; it is run to completion here. *)
Definition App_checkAuthStatus (a : App) (w : World) : App * World :=
  match (authenticated <- isAuthenticated ;;
         if authenticated
         then (profileResponse <- getProfile host ;;
               user <- lift (member profileResponse "user") ;;
               ret (Some user))
         else ret None) w with
  | (Ok (Some user), w') =>
      loadUserStats host (setCurrentScreen home (setCurrentUser user a)) w'
  | (Ok None, w') => (setCurrentScreen auth a, w')
  | (Throw _, w') => (setCurrentScreen auth a, w')
  end.

(** App.tsx, lines 69-75. Reading [user.id] throws when [user] is [null]
    or [undefined], after the two state updates. *)
Definition handleAuthSuccess (user : Val) (a : App) (w : World) : Result unit * (App * World) :=
  let a1 := setCurrentScreen home (setCurrentUser user a) in
  match member user "id" with
  | Ok id =>
      if is_not_zero id then (Ok tt, loadUserStats host a1 w) else (Ok tt, (a1, w))
  | Throw e => (Throw e, (a1, w))
  end.

(** App.tsx, lines 77-107: [handleLogout] asks for confirmation; the
    'Logout' button of the dialog runs [handleLogout_onPress]. *)
Definition handleLogout (a : App) : App :=
  Alert_alert "Logout" "Are you sure you want to logout?" a.

Definition handleLogout_onPress (a : App) (w : World) : App * World :=
  match logout host w with
  | (Ok _, w') =>
      (setStats zero_stats (setCurrentScreen auth (setCurrentUser Null a)), w')
  | (Throw _, w') => (a, w')
  end.

End Shell.

(** The user [handleGuestMode] of AuthScreen.tsx (lines 122-130) hands to
    [onAuthSuccess]. *)
Definition guest_user : Val :=
  Obj [ ("id", Num 0); ("username", Str "Guest"); ("email", Str "");
        ("subscription_type", Str "free") ].

(** The fields of the statistics the home screen prints. *)
Definition stat_keys : list string :=
  [ "questionsAnswered"; "accuracy"; "currentStreak"; "longestStreak"; "correctAnswers" ].

(** A statistics object the home screen can print: each counter is there
    and is zero or truthy (so not [null], [undefined], [false] or ['']). *)
Definition printable (s : Val) : Prop :=
  forall key, In key stat_keys ->
    exists v, member s key = Ok v /\ (v = Num 0 \/ truthy v = true).

(** [typeof v === 'function']: the members inherited from
    [Object.prototype] are functions, except [__proto__]. A state setter
    of React does not store such a value: it runs it as an updater of the
    previous state. *)
Definition is_function (v : Val) : bool :=
  match v with
  | Native name => negb (name =? "Object.prototype.__proto__")
  | _ => false
  end.

(** A host whose network is down: every [fetch] is rejected with [e]. *)
Definition network_down (host : Host) (e : Thrown) : Prop :=
  forall log, fetch_outcome host log = Unreachable e.

(** ** The authentication form (AuthScreen.tsx) *)

(** A string is read here as the sequence of its UTF-16 code units, each
    below 256 (one [ascii] per unit): [length] counts them, and the white
    space of [trim] and of [\s] among them is TAB, LF, VT, FF, CR, SPACE and
    NO-BREAK SPACE. *)
Definition is_space (c : ascii) : bool :=
  let n := nat_of_ascii c in
  (((9 <=? n) && (n <=? 13)) || (n =? 32) || (n =? 160))%nat.

Fixpoint trimStart (s : list ascii) : list ascii :=
  match s with
  | c :: rest => if is_space c then trimStart rest else s
  | [] => []
  end.

(** [s.trim()] *)
Definition trim (s : string) : string :=
  string_of_list_ascii
    (rev (trimStart (rev (trimStart (list_ascii_of_string s))))).

(** Regular expressions without captures, as far as the form needs them;
    [test] decides membership by derivatives. *)
Inductive Regex : Type :=
| Void
| Eps
| Class (p : ascii -> bool)
| Cat (r s : Regex)
| Alt (r s : Regex)
| Star (r : Regex).

Definition Plus (r : Regex) : Regex := Cat r (Star r).

Definition Chr (c : ascii) : Regex := Class (Ascii.eqb c).

Fixpoint nullable (r : Regex) : bool :=
  match r with
  | Void => false
  | Eps => true
  | Class _ => false
  | Cat r s => nullable r && nullable s
  | Alt r s => nullable r || nullable s
  | Star _ => true
  end.

Fixpoint derive (c : ascii) (r : Regex) : Regex :=
  match r with
  | Void => Void
  | Eps => Void
  | Class p => if p c then Eps else Void
  | Cat r s =>
      if nullable r then Alt (Cat (derive c r) s) (derive c s)
      else Cat (derive c r) s
  | Alt r s => Alt (derive c r) (derive c s)
  | Star r => Cat (derive c r) (Star r)
  end.

(** [/^r$/.test(s)] *)
Fixpoint test (r : Regex) (s : string) : bool :=
  match s with
  | EmptyString => nullable r
  | String c rest => test (derive c r) rest
  end.

(** [[^\s@]] *)
Definition address_char (c : ascii) : bool := negb (is_space c || Ascii.eqb c "@").

(** [/^[^\s@]+@[^\s@]+\.[^\s@]+$/] *)
Definition emailRegex : Regex :=
  Cat (Plus (Class address_char))
    (Cat (Chr "@")
       (Cat (Plus (Class address_char))
          (Cat (Chr ".") (Plus (Class address_char))))).

Record Form : Type := mkForm {
  username : string;
  email : string;
  password : string;
  confirmPassword : string
}.

(** The component state of [AuthScreen]. *)
Record AuthScreen : Type := mkAuthScreen {
  isLogin : bool;
  auth_loading : bool;
  formData : Form
}.

Definition empty_form : Form := mkForm "" "" "" "".

Definition initial_AuthScreen : AuthScreen := mkAuthScreen true false empty_form.

(** [!s.trim()] *)
Definition blank (s : string) : bool := trim s =? "".

(** AuthScreen.tsx, lines 34-70: the verdict, and the message of the alert
    raised when the form is refused. *)
Definition validateForm (s : AuthScreen) (a : App) : bool * App :=
  let f := formData s in
  if blank (email f) then (false, Alert_alert "Error" "Email is required" a)
  else if blank (password f) then (false, Alert_alert "Error" "Password is required" a)
  else if negb (isLogin s) && blank (username f)
       then (false, Alert_alert "Error" "Username is required" a)
  else if negb (isLogin s) && (String.length (password f) <? 6)%nat
       then (false, Alert_alert "Error" "Password must be at least 6 characters long" a)
  else if negb (isLogin s) && negb (password f =? confirmPassword f)
       then (false, Alert_alert "Error" "Passwords do not match" a)
  else if negb (test emailRegex (email f))
       then (false, Alert_alert "Error" "Please enter a valid email address" a)
  else (true, a).

Definition setAuthLoading (b : bool) (s : AuthScreen) : AuthScreen :=
  mkAuthScreen (isLogin s) b (formData s).

(** The words a regular expression denotes. *)
Inductive Matches : Regex -> list ascii -> Prop :=
| MEps : Matches Eps []
| MClass p c : p c = true -> Matches (Class p) [c]
| MCat r s u v : Matches r u -> Matches s v -> Matches (Cat r s) (u ++ v)
| MAltL r s u : Matches r u -> Matches (Alt r s) u
| MAltR r s u : Matches s u -> Matches (Alt r s) u
| MStar0 r : Matches (Star r) []
| MStarApp r u v : Matches r u -> Matches (Star r) v -> Matches (Star r) (u ++ v).

(** A piece of an address: not empty, no white space, no '@'. *)
Definition address_part (s : string) : Prop :=
  s <> "" /\ forallb address_char (list_ascii_of_string s) = true.

(** [error.message.includes(sub)] for a caught value of any kind: the
    message of an [Error]; otherwise the [message] member of the value,
    searched as a string or as an array, and a TypeError when that member
    has no [includes]. *)
Definition message_includes (e : Thrown) (sub : string) : Result bool :=
  match e with
  | Error message => Ok (includes message sub)
  | Raw v =>
      match member v "message" with
      | Throw t => Throw t
      | Ok (Str s) => Ok (includes s sub)
      | Ok (Arr items) =>
          Ok (existsb (fun x => match x with Str y => y =? sub | _ => false end) items)
      | Ok _ => Throw (Error "error.message.includes is not a function")
      end
  end.

(** The message the [catch] block of the form picks (AuthScreen.tsx,
    lines 95-105). *)
Definition errorMessage (e : Thrown) : Result string :=
  match message_includes e "409" with
  | Throw t => Throw t
  | Ok true => Ok "User with this email or username already exists"
  | Ok false =>
      match message_includes e "401" with
      | Throw t => Throw t
      | Ok true => Ok "Invalid email or password"
      | Ok false =>
          match message_includes e "400" with
          | Throw t => Throw t
          | Ok true => Ok "Please check your input and try again"
          | Ok false => Ok "Something went wrong. Please try again."
          end
      end
  end.

Section Form.

Variable host : Host.

(** AuthScreen.tsx, lines 72-110. [onAuthSuccess] is [handleAuthSuccess]
    of App.tsx. The run is [None] where that of [login] or [register]
    is. *)
Definition AuthScreen_handleSubmit (s : AuthScreen) (a : App) (w : World)
    : option (Result unit * (AuthScreen * (App * World))) :=
  let (valid, a0) := validateForm s a in
  if negb valid then Some (Ok tt, (s, (a0, w)))
  else
    let f := formData s in
    let s1 := setAuthLoading true s in
    match (if isLogin s then login host (email f) (password f) w
           else register host (username f) (email f) (password f) w) with
    | None => None
    | Some (attempt, w1) =>
        let tried : Result unit * (App * World) :=
          match attempt with
          | Ok response =>
              let a1 := Alert_alert "Success"
                          (if isLogin s then "Welcome back!"
                           else "Account created successfully!") a0 in
              match member response "user" with
              | Ok user => handleAuthSuccess host user a1 w1
              | Throw e => (Throw e, (a1, w1))
              end
          | Throw e => (Throw e, (a0, w1))
          end in
        match tried with
        | (Ok _, (a2, w2)) => Some (Ok tt, (setAuthLoading false s1, (a2, w2)))
        | (Throw e, (a2, w2)) =>
            match errorMessage e with
            | Ok message =>
                Some (Ok tt, (setAuthLoading false s1, (Alert_alert "Error" message a2, w2)))
            | Throw t => Some (Throw t, (setAuthLoading false s1, (a2, w2)))
            end
        end
    end.

(** AuthScreen.tsx, lines 122-130 *)
Definition handleGuestMode (a : App) (w : World) : Result unit * (App * World) :=
  handleAuthSuccess host guest_user a w.

End Form.

(** The message shown after a failing HTTP status. *)
Definition message_for_status (status : nat) : string :=
  if (status =? 409)%nat then "User with this email or username already exists"
  else if (status =? 400)%nat then "Please check your input and try again"
  else "Something went wrong. Please try again.".

(** ** The review screen (the ReviewScreen component, in HomeScreen.tsx
    from line 240 on) *)

Module ReviewScreen.

(** A result alert that [handleSubmit] has scheduled: the grading result,
    and the [currentQuestionIndex] and [reviewQuestions] of the render in
    which the answer was submitted, which the alert's 'Next Question'
    button closes over (lines 326-337). *)
Record Pending : Type := mkPending {
  graded : Val;
  seen_index : nat;
  seen_questions : list Val
}.

(** The component state, the alerts raised (latest first) and the result
    alerts that are pending (latest first). *)
Record State : Type := mkState {
  reviewQuestions : list Val;
  currentQuestionIndex : nat;
  selectedAnswer : option string;
  showExplanation : bool;
  loading : bool;
  reviewComplete : bool;
  submitting : bool;
  alerts : list (string * string);
  scheduled : list Pending
}.

Definition initial : State := mkState [] 0 None false true false false [] [].

Definition setReviewQuestions (qs : list Val) (st : State) : State :=
  mkState qs (currentQuestionIndex st) (selectedAnswer st) (showExplanation st)
          (loading st) (reviewComplete st) (submitting st) (alerts st) (scheduled st).

Definition setCurrentQuestionIndex (i : nat) (st : State) : State :=
  mkState (reviewQuestions st) i (selectedAnswer st) (showExplanation st)
          (loading st) (reviewComplete st) (submitting st) (alerts st) (scheduled st).

Definition setSelectedAnswer (s : option string) (st : State) : State :=
  mkState (reviewQuestions st) (currentQuestionIndex st) s (showExplanation st)
          (loading st) (reviewComplete st) (submitting st) (alerts st) (scheduled st).

Definition setShowExplanation (b : bool) (st : State) : State :=
  mkState (reviewQuestions st) (currentQuestionIndex st) (selectedAnswer st) b
          (loading st) (reviewComplete st) (submitting st) (alerts st) (scheduled st).

Definition setLoading (b : bool) (st : State) : State :=
  mkState (reviewQuestions st) (currentQuestionIndex st) (selectedAnswer st)
          (showExplanation st) b (reviewComplete st) (submitting st) (alerts st)
          (scheduled st).

Definition setReviewComplete (b : bool) (st : State) : State :=
  mkState (reviewQuestions st) (currentQuestionIndex st) (selectedAnswer st)
          (showExplanation st) (loading st) b (submitting st) (alerts st) (scheduled st).

Definition setSubmitting (b : bool) (st : State) : State :=
  mkState (reviewQuestions st) (currentQuestionIndex st) (selectedAnswer st)
          (showExplanation st) (loading st) (reviewComplete st) b (alerts st)
          (scheduled st).

Definition Alert_alert (title message : string) (st : State) : State :=
  mkState (reviewQuestions st) (currentQuestionIndex st) (selectedAnswer st)
          (showExplanation st) (loading st) (reviewComplete st) (submitting st)
          ((title, message) :: alerts st) (scheduled st).

(** [setTimeout(() => Alert.alert(...), 500)] inside [handleSubmit]: the
    button of the alert keeps the index and the questions of now. *)
Definition setTimeout_alert (result : Val) (st : State) : State :=
  mkState (reviewQuestions st) (currentQuestionIndex st) (selectedAnswer st)
          (showExplanation st) (loading st) (reviewComplete st) (submitting st)
          (alerts st)
          (mkPending result (currentQuestionIndex st) (reviewQuestions st) :: scheduled st).

Fixpoint drop_nth {A : Type} (k : nat) (l : list A) : list A :=
  match k, l with
  | _, [] => []
  | 0, _ :: rest => rest
  | S k', x :: rest => x :: drop_nth k' rest
  end.

(** The alert is gone once its button is pressed. *)
Definition dismiss (k : nat) (st : State) : State :=
  mkState (reviewQuestions st) (currentQuestionIndex st) (selectedAnswer st)
          (showExplanation st) (loading st) (reviewComplete st) (submitting st)
          (alerts st) (drop_nth k (scheduled st)).

(** [reviewQuestions[currentQuestionIndex]]: [None] is [undefined]. *)
Definition currentQuestion (st : State) : option Val :=
  nth_error (reviewQuestions st) (currentQuestionIndex st).

(** [questions.length === 0] on whatever [getMissedQuestions] returned. *)
Definition length_is_zero (questions : Val) : Result bool :=
  match questions with
  | Arr items => Ok (match items with [] => true | _ => false end)
  | Str s => Ok (s =? "")
  | _ =>
      match member questions "length" with
      | Ok (Num 0) => Ok true
      | Ok _ => Ok false
      | Throw e => Throw e
      end
  end.

Section Handlers.

Variable host : Host.

(** Lines 278-300. The state holds an array of questions: a reply that
    is not an array and whose [length] is not 0 would be stored as it is,
    which this state cannot hold, and the run is [None]. *)
Definition loadReviewQuestions (st : State) (w : World) : option (State * World) :=
  let st1 := setLoading true st in
  match (questions <- getMissedQuestions host ;;
         empty <- lift (length_is_zero questions) ;;
         ret (questions, empty)) w with
  | (Ok (_, true), w') => Some (setLoading false (setReviewComplete true st1), w')
  | (Ok (Arr items, false), w') => Some (setLoading false (setReviewQuestions items st1), w')
  | (Ok (_, false), w') => None
  | (Throw _, w') =>
      Some (setLoading false
              (Alert_alert "Error"
                 "Failed to load review questions. You might need to answer some questions incorrectly first!"
                 st1), w')
  end.

(** Lines 302-305 *)
Definition handleAnswerSelect (answer : string) (st : State) : State :=
  if showExplanation st then st else setSelectedAnswer (Some answer) st.

(** The body the two 'next' buttons share, with the
    [currentQuestionIndex] and [reviewQuestions] that the button's closure
    sees: the setters act on the state of now, the test and the new index
    come from the closure. *)
Definition advance (index : nat) (questions : list Val) (st : State) : State :=
  if (Z.of_nat index <? Z.of_nat (List.length questions) - 1)%Z
  then setShowExplanation false
         (setSelectedAnswer None (setCurrentQuestionIndex (index + 1) st))
  else setReviewComplete true st.

(** The footer button (lines 528-536): its closure is the one of the
    render on the screen, so it sees the state of now. *)
Definition handleNext (st : State) : State :=
  advance (currentQuestionIndex st) (reviewQuestions st) st.

(** The 'Next Question' button of the [k]-th pending result alert (lines
    326-337): its closure was made when the answer was submitted, so it
    sees the index and the questions of then, whatever the footer button
    has done in between. No such alert: nothing to press. *)
Definition handleAlertNext (k : nat) (st : State) : State :=
  match nth_error (scheduled st) k with
  | Some p => advance (seen_index p) (seen_questions p) (dismiss k st)
  | None => st
  end.

(** Lines 307-349 *)
Definition handleSubmit (st : State) (w : World) : State * World :=
  match selectedAnswer st, currentQuestion st with
  | Some (String c s), Some q =>
      if negb (truthy q) then (st, w)
      else
        let st1 := setSubmitting true st in
        match (id <- lift (member q "id") ;;
               submitAnswer host (mkSubmit id (String c s) None)) w with
        | (Ok result, w') =>
            (setSubmitting false (setTimeout_alert result (setShowExplanation true st1)), w')
        | (Throw _, w') =>
            (setSubmitting false (Alert_alert "Error" "Failed to submit answer" st1), w')
        end
  | _, _ => (st, w)
  end.

Inductive Event : Type :=
| Select (answer : string)
| Submit
| Next
| AlertNext (k : nat).

Definition handle (e : Event) (st : State) (w : World) : State * World :=
  match e with
  | Select answer => (handleAnswerSelect answer st, w)
  | Submit => handleSubmit st w
  | Next => (handleNext st, w)
  | AlertNext k => (handleAlertNext k st, w)
  end.

Fixpoint session (events : list Event) (st : State) (w : World) : State * World :=
  match events with
  | [] => (st, w)
  | e :: rest => let (st', w') := handle e st w in session rest st' w'
  end.

End Handlers.

(** The presses of the footer button, and of the alerts' buttons, among
    the events. *)
Definition footer_presses (events : list Event) : nat :=
  List.length (filter (fun e => match e with Next => true | _ => false end) events).

Definition alert_presses (events : list Event) : nat :=
  List.length (filter (fun e => match e with AlertNext _ => true | _ => false end) events).

(** What the component renders (lines 380-432): the spinner, the
    completion view, or the current question. *)
Inductive View : Type := Spinner | Completed | Showing (question : option Val).

Definition render (st : State) : View :=
  if loading st then Spinner
  else if reviewComplete st || Nat.eqb (List.length (reviewQuestions st)) 0 then Completed
  else Showing (currentQuestion st).

End ReviewScreen.

(** The index points into the list of questions, unless there is none. *)
Definition index_in_range (st : ReviewScreen.State) : Prop :=
  ReviewScreen.reviewQuestions st = [] \/
  ReviewScreen.currentQuestionIndex st < List.length (ReviewScreen.reviewQuestions st).

(** Every pending alert was scheduled with the questions of now. *)
Definition alerts_in_step (st : ReviewScreen.State) : Prop :=
  Forall (fun p => ReviewScreen.seen_questions p = ReviewScreen.reviewQuestions st)
         (ReviewScreen.scheduled st).

(** * Properties *)

(** ** Reasoning tools *)

(** Unfolds the monad and the storage primitive, leaving the tests on the
    host's answers in place. *)
Ltac run :=
  unfold try_catch, bind, ret, throw, lift, get_token, set_token, storage_call;
  cbv beta iota zeta.

Section TokenStore.

Variable host : Host.

Lemma saveToken_eq t w :
  saveToken host t w =
  (Ok tt, mkWorld (Some t)
            (match storage_fault host (storage_ops w) with
             | Some _ => persisted w
             | None => Some t
             end)
            (sent w) (S (storage_ops w))).
Proof.
  unfold saveToken, setItem. run. cbn [storage_ops token persisted sent].
  destruct (storage_fault host (storage_ops w)); reflexivity.
Qed.

Lemma removeToken_eq w :
  removeToken host w =
  (Ok tt, mkWorld None
            (match storage_fault host (storage_ops w) with
             | Some _ => persisted w
             | None => None
             end)
            (sent w) (S (storage_ops w))).
Proof.
  unfold removeToken, removeItem. run. cbn [storage_ops token persisted sent].
  destruct (storage_fault host (storage_ops w)); reflexivity.
Qed.

Lemma loadToken_eq w :
  loadToken host w =
  (Ok tt, mkWorld (match storage_fault host (storage_ops w) with
                   | Some _ => token w
                   | None => persisted w
                   end)
            (persisted w) (sent w) (S (storage_ops w))).
Proof.
  unfold loadToken, getItem. run.
  destruct (storage_fault host (storage_ops w)); reflexivity.
Qed.

Lemma removeToken_token w : token (snd (removeToken host w)) = None.
Proof. rewrite removeToken_eq. reflexivity. Qed.

End TokenStore.

Section Gateway.

Variable host : Host.

(** One equation for the whole of [request]: the request is logged, and
    the host's answer decides the rest. *)
Lemma request_eq endpoint options w :
  request host endpoint options w =
  let req := config host endpoint (token w) options in
  let w1 := after_fetch req w in
  match fetch_outcome host (req :: sent w) with
  | Unreachable e => (Throw e, w1)
  | Response status json =>
      if ok status then (json, w1)
      else if (status =? 401)%nat
           then (Throw (Error "Authentication failed"), snd (removeToken host w1))
           else (Throw (Error ("HTTP error! status: " ++ decimal status)), w1)
  end.
Proof.
  unfold request, fetch, after_fetch. run.
  destruct (fetch_outcome host _) as [e | status json]; [reflexivity |].
  destruct (ok status); cbn [negb].
  - destruct json; reflexivity.
  - destruct (status =? 401)%nat; [| reflexivity].
    rewrite removeToken_eq. reflexivity.
Qed.

Lemma ok_401 : ok 401 = false.
Proof. reflexivity. Qed.

Lemma request_logs endpoint options w :
  sent (snd (request host endpoint options w)) =
  config host endpoint (token w) options :: sent w.
Proof.
  rewrite request_eq. cbv zeta.
  destruct (fetch_outcome host _) as [e | status json]; [reflexivity |].
  destruct (ok status); [reflexivity |].
  destruct (status =? 401)%nat; [| reflexivity].
  rewrite removeToken_eq. reflexivity.
Qed.

Lemma authorized_config endpoint t options :
  authorized (config host endpoint t options) = truthy_token t.
Proof. destruct t as [[| c s] |]; reflexivity. Qed.

(** A response other than 401, or no response, leaves the token, the
    persisted entry and the storage untouched. *)
Lemma request_keeps_credential endpoint options w :
  (forall json,
     fetch_outcome host (config host endpoint (token w) options :: sent w)
     <> Response 401 json) ->
  snd (request host endpoint options w)
  = after_fetch (config host endpoint (token w) options) w.
Proof.
  intros H. rewrite request_eq. cbv zeta.
  destruct (fetch_outcome host _) as [e | status json]; [reflexivity |].
  destruct (ok status); [reflexivity |].
  destruct (Nat.eqb_spec status 401) as [-> | _]; [| reflexivity].
  exfalso. exact (H json eq_refl).
Qed.

(** A failed call, whatever the failure, never leaves a truthy token
    behind unless one was there before. *)
Lemma request_never_authenticates endpoint options w :
  truthy_token (token w) = false ->
  truthy_token (token (snd (request host endpoint options w))) = false.
Proof.
  intros H. rewrite request_eq. cbv zeta.
  destruct (fetch_outcome host _) as [e | status json]; [exact H |].
  destruct (ok status); [exact H |].
  destruct (status =? 401)%nat; [| exact H].
  cbn [snd]. rewrite removeToken_token. reflexivity.
Qed.

End Gateway.

Section Facade.

Variable host : Host.

Lemma logout_eq w :
  logout host w =
  removeToken host
    (if truthy_token (token w)
     then snd (request host "/auth/logout" (POST None) w)
     else w).
Proof.
  unfold logout. run.
  destruct (truthy_token (token w)); [| reflexivity].
  destruct (request host "/auth/logout" (POST None) w) as [[v | e] w1]; reflexivity.
Qed.

Lemma getProfile_eq w :
  getProfile host w =
  match request host "/auth/profile" GET w with
  | (Ok v, w') => (Ok v, w')
  | (Throw e, w') =>
      (Throw e, if is_error_with e "401" then snd (removeToken host w') else w')
  end.
Proof.
  unfold getProfile. run.
  destruct (request host "/auth/profile" GET w) as [[v | e] w1]; [reflexivity |].
  destruct (is_error_with e "401"); [| reflexivity].
  rewrite removeToken_eq. reflexivity.
Qed.

Lemma getProfile_logs w :
  sent (snd (getProfile host w)) = config host "/auth/profile" (token w) GET :: sent w.
Proof.
  rewrite getProfile_eq. pose proof (request_logs host "/auth/profile" GET w) as H.
  destruct (request host "/auth/profile" GET w) as [[v | e] w1]; cbn [snd] in *;
    [exact H |].
  destruct (is_error_with e "401"); [| exact H].
  rewrite removeToken_eq. exact H.
Qed.

Lemma checkAuthStatus_eq w :
  checkAuthStatus host w =
  if truthy_token (token w) then
    match getProfile host w with
    | (Ok _, w') => (Ok true, w')
    | (Throw _, w') => (Ok false, snd (removeToken host w'))
    end
  else (Ok false, w).
Proof.
  unfold checkAuthStatus. run.
  destruct (truthy_token (token w)); cbn [negb]; [| reflexivity].
  destruct (getProfile host w) as [[v | e] w1]; [reflexivity |].
  rewrite removeToken_eq. reflexivity.
Qed.

Lemma generateQuestion_eq r w :
  generateQuestion host r w =
  match request host "/questions/generate" (POST (Some (generate_payload r))) w with
  | (Ok v, w') => (Ok v, w')
  | (Throw e, w') =>
      if truthy_token (token w') then (Throw e, w')
      else (Ok (getSampleQuestion (g_type r)), w')
  end.
Proof.
  unfold generateQuestion, isAuthenticated. run.
  destruct (request host _ _ w) as [[v | e] w1]; [reflexivity |].
  destruct (truthy_token (token w1)); reflexivity.
Qed.

End Facade.

(** ** Token store *)

Example save_with_storage_down :
  saveToken (broken_storage offline) "abc" guest = (Ok tt, mkWorld (Some "abc") None [] 1).
Proof. reflexivity. Qed.

Example remove_with_storage_down :
  removeToken (broken_storage offline) (signed_in "abc")
  = (Ok tt, mkWorld None (Some "abc") [] 1).
Proof. reflexivity. Qed.

Example construct_with_storage_down :
  construct (broken_storage offline) (Some "abc") = mkWorld None (Some "abc") [] 1.
Proof. reflexivity. Qed.

Example construct_restores_session :
  construct offline (Some "abc") = mkWorld (Some "abc") (Some "abc") [] 1.
Proof. reflexivity. Qed.

(** C7. Whatever the storage does, [saveToken t] and [removeToken] return
    normally and leave the cached token at [t], respectively at [null]: the
    cache is assigned before the storage is written, and a failed write is
    caught, leaving the persisted entry as it was. [loadToken] returns
    normally as well, and when the read fails the freshly constructed
    service holds no token. *)
Theorem token_store_swallows_storage_failures
    (host : Host) (t : string) (stored : option string) (w : World) :
  (fst (saveToken host t w) = Ok tt /\
   token (snd (saveToken host t w)) = Some t /\
   persisted (snd (saveToken host t w))
   = match storage_fault host (storage_ops w) with
     | Some _ => persisted w
     | None => Some t
     end) /\
  (fst (removeToken host w) = Ok tt /\
   token (snd (removeToken host w)) = None /\
   persisted (snd (removeToken host w))
   = match storage_fault host (storage_ops w) with
     | Some _ => persisted w
     | None => None
     end) /\
  fst (loadToken host w) = Ok tt /\
  token (construct host stored)
  = match storage_fault host 0 with
    | Some _ => None
    | None => stored
    end.
Proof.
  unfold construct.
  rewrite saveToken_eq, removeToken_eq, !loadToken_eq.
  cbn [fst snd token persisted storage_ops].
  repeat split; reflexivity.
Qed.

(** C9. [isAuthenticated()] is true exactly when the cached token is
    neither [null] nor the empty string. [saveToken t] caches [t] whatever
    [t] is; after [saveToken ""] the service holds the empty token, has
    written it to the storage (when the write goes through), and yet
    reports that it is not authenticated. *)
Theorem isAuthenticated_iff_token_nonempty (host : Host) (t : string) (w : World) :
  (fst (isAuthenticated w) = Ok true <-> exists s, token w = Some s /\ s <> "") /\
  token (snd (saveToken host t w)) = Some t /\
  token (snd (saveToken host "" w)) = Some "" /\
  persisted (snd (saveToken host "" w))
  = match storage_fault host (storage_ops w) with
    | Some _ => persisted w
    | None => Some ""
    end /\
  fst (isAuthenticated (snd (saveToken host "" w))) = Ok false.
Proof.
  rewrite !saveToken_eq. cbn [fst snd token persisted].
  repeat split; try reflexivity.
  - unfold isAuthenticated. run. cbn [fst].
    destruct (token w) as [[| c s] |]; cbn [truthy_token]; intros H;
      try discriminate H.
    exists (String c s). split; [reflexivity | discriminate].
  - intros (s & Hs & Hne). unfold isAuthenticated. run. cbn [fst].
    rewrite Hs. destruct s; [contradiction Hne; reflexivity | reflexivity].
Qed.

Example empty_token_is_stored_but_not_authenticated :
  saveToken offline "" guest = (Ok tt, mkWorld (Some "") (Some "") [] 1) /\
  fst (isAuthenticated (snd (saveToken offline "" guest))) = Ok false.
Proof. split; reflexivity. Qed.

(** ** Request gateway *)

Example request_401 :
  request (replying 401 (Ok Null)) "/questions/stats" GET (signed_in "abc")
  = (Throw (Error "Authentication failed"),
     mkWorld None None
       [ mkRequest "http://127.0.0.1:3000/api/questions/stats" "GET"
           [("Content-Type", "application/json"); ("Authorization", "Bearer abc")] None ]
       1).
Proof. reflexivity. Qed.

Example request_500 :
  request (replying 500 (Ok Null)) "/questions/stats" GET (signed_in "abc")
  = (Throw (Error "HTTP error! status: 500"),
     mkWorld (Some "abc") (Some "abc")
       [ mkRequest "http://127.0.0.1:3000/api/questions/stats" "GET"
           [("Content-Type", "application/json"); ("Authorization", "Bearer abc")] None ]
       0).
Proof. reflexivity. Qed.

(** C2. When the response status is 401 the gateway runs [removeToken]
    (the cached token becomes [null], the persisted entry is removed unless
    the storage refuses) and then throws the error 'Authentication failed',
    a message no other HTTP failure carries; whatever is requested next goes
    out without an [Authorization] header. On every other outcome (a
    successful response, another status, no response at all) the token and
    the persisted entry are what they were and the storage is not touched. *)
Theorem request_clears_credential_only_on_401
    (host : Host) (endpoint : string) (options : RequestInit) (w : World) :
  let req := config host endpoint (token w) options in
  let outcome := fetch_outcome host (req :: sent w) in
  let w' := snd (request host endpoint options w) in
  (forall json, outcome = Response 401 json ->
     request host endpoint options w
     = (Throw (Error "Authentication failed"), snd (removeToken host (after_fetch req w))) /\
     token w' = None /\
     persisted w' = match storage_fault host (storage_ops w) with
                    | Some _ => persisted w
                    | None => None
                    end /\
     forall endpoint' options',
       exists next,
         sent (snd (request host endpoint' options' w')) = next :: sent w' /\
         authorized next = false) /\
  (forall status json, outcome = Response status json -> ok status = false ->
     status <> 401 ->
     fst (request host endpoint options w)
     = Throw (Error ("HTTP error! status: " ++ decimal status)) /\
     Error ("HTTP error! status: " ++ decimal status) <> Error "Authentication failed") /\
  ((forall json, outcome <> Response 401 json) ->
     credential w' = credential w /\ storage_ops w' = storage_ops w).
Proof.
  cbv zeta. split; [| split].
  - intros json H. rewrite request_eq. cbv zeta. rewrite H, ok_401.
    cbn [Nat.eqb snd]. rewrite removeToken_eq.
    cbn [snd token persisted after_fetch storage_ops].
    repeat split.
    intros endpoint' options'. eexists. split.
    + rewrite request_logs. reflexivity.
    + rewrite authorized_config. reflexivity.
  - intros status json H Hok Hne. rewrite request_eq. cbv zeta. rewrite H, Hok.
    destruct (Nat.eqb_spec status 401) as [E | _]; [contradiction |].
    split; [reflexivity | discriminate].
  - intros H. rewrite request_keeps_credential by exact H. split; reflexivity.
Qed.

Lemma request_clears_credential_only_on_401_witness :
  (token (snd (request (replying 401 (Ok Null)) "/questions/stats" GET (signed_in "abc")))
   = None) /\
  (credential (snd (request offline "/questions/stats" GET (signed_in "abc")))
   = credential (signed_in "abc")).
Proof.
  split.
  - exact (proj1 (proj2 (proj1 (request_clears_credential_only_on_401
             (replying 401 (Ok Null)) "/questions/stats" GET (signed_in "abc"))
             (Ok Null) eq_refl))).
  - refine (proj1 (proj2 (proj2 (request_clears_credential_only_on_401
             offline "/questions/stats" GET (signed_in "abc"))) _)).
    intros json H. discriminate H.
Defined.

Example message_of_401_has_no_401 :
  includes "Authentication failed" "401" = false /\
  includes "HTTP error! status: 401" "401" = true.
Proof. split; reflexivity. Qed.

(** The removal in [getProfile]'s handler does run for an error whose
    message happens to contain '401', such as a refused connection. *)
Example getProfile_removes_on_a_message_with_401 :
  getProfile
    (mkHost true (fun _ => Unreachable (Error "connect ECONNREFUSED 10.0.2.2:4401"))
       (fun _ => None))
    (signed_in "abc")
  = (Throw (Error "connect ECONNREFUSED 10.0.2.2:4401"),
     mkWorld None None
       [ mkRequest "http://127.0.0.1:3000/api/auth/profile" "GET"
           [("Content-Type", "application/json"); ("Authorization", "Bearer abc")] None ]
       1).
Proof. reflexivity. Qed.

(** C10. When the profile fetch is answered with 401, the error the
    gateway throws reads 'Authentication failed', which does not contain
    '401': the removal in [getProfile]'s own handler is not run, so
    [getProfile] ends exactly where the gateway ended, after one storage
    call (the gateway's removal) and no more. *)
Theorem getProfile_401_leaves_gateway_state (host : Host) (w : World) (json : Result Val) :
  fetch_outcome host (config host "/auth/profile" (token w) GET :: sent w)
  = Response 401 json ->
  is_error_with (Error "Authentication failed") "401" = false /\
  fst (request host "/auth/profile" GET w) = Throw (Error "Authentication failed") /\
  getProfile host w = request host "/auth/profile" GET w /\
  credential (snd (getProfile host w))
  = credential (snd (request host "/auth/profile" GET w)) /\
  storage_ops (snd (getProfile host w)) = S (storage_ops w).
Proof.
  intros H.
  assert (E : request host "/auth/profile" GET w
              = (Throw (Error "Authentication failed"),
                 snd (removeToken host
                        (after_fetch (config host "/auth/profile" (token w) GET) w)))).
  { rewrite request_eq. cbv zeta. rewrite H, ok_401. reflexivity. }
  assert (G : getProfile host w = request host "/auth/profile" GET w).
  { rewrite getProfile_eq, E. reflexivity. }
  split; [reflexivity |]. split; [rewrite E; reflexivity |].
  split; [exact G |]. split; [rewrite G; reflexivity |].
  rewrite G, E, removeToken_eq. reflexivity.
Qed.

Lemma getProfile_401_leaves_gateway_state_witness :
  getProfile (replying 401 (Ok Null)) (signed_in "abc")
  = request (replying 401 (Ok Null)) "/auth/profile" GET (signed_in "abc").
Proof.
  exact (proj1 (proj2 (proj2 (getProfile_401_leaves_gateway_state
           (replying 401 (Ok Null)) (signed_in "abc") (Ok Null) eq_refl)))).
Defined.

(** ** Session facade *)

Example logout_offline :
  logout offline (signed_in "abc")
  = (Ok tt,
     mkWorld None None
       [ mkRequest "http://127.0.0.1:3000/api/auth/logout" "POST"
           [("Content-Type", "application/json"); ("Authorization", "Bearer abc")] None ]
       1).
Proof. reflexivity. Qed.

Example logout_offline_storage_down :
  logout (broken_storage offline) (signed_in "abc")
  = (Ok tt,
     mkWorld None (Some "abc")
       [ mkRequest "http://127.0.0.1:3000/api/auth/logout" "POST"
           [("Content-Type", "application/json"); ("Authorization", "Bearer abc")] None ]
       1).
Proof. reflexivity. Qed.

(** C3 as stated does not hold: with the network unreachable and the
    storage refusing the removal, [logout] completes and the cached token is
    [null], but the persisted entry is still there. *)
Lemma logout_storage_failure_keeps_entry :
  ~ (forall (host : Host) (w : World),
       fst (logout host w) = Ok tt /\
       token (snd (logout host w)) = None /\
       persisted (snd (logout host w)) = None).
Proof.
  intros H.
  destruct (H (broken_storage offline) (signed_in "abc")) as (_ & _ & E).
  discriminate E.
Qed.

(** C3, amended. For every token, cached or not, every outcome of the
    call to [/auth/logout] and every behaviour of the storage, [logout]
    completes, the cached token is [null] and [isAuthenticated()] is false
    afterwards. The persisted entry is absent afterwards when the storage
    removal that ends [logout] succeeds; when that removal fails, the
    failure is swallowed and the entry is what it was just before it. No
    outcome of the network call stands in the way. *)
Theorem logout_always_unauthenticates (host : Host) (w : World) :
  let before :=
    if truthy_token (token w)
    then snd (request host "/auth/logout" (POST None) w)
    else w in
  let w' := snd (logout host w) in
  fst (logout host w) = Ok tt /\
  token w' = None /\
  fst (isAuthenticated w') = Ok false /\
  Nat.pred (storage_ops w') = storage_ops before /\
  persisted w' = match storage_fault host (Nat.pred (storage_ops w')) with
                 | Some _ => persisted before
                 | None => None
                 end /\
  (storage_fault host (Nat.pred (storage_ops w')) = None -> persisted w' = None).
Proof.
  cbv zeta. rewrite logout_eq, removeToken_eq.
  cbn [fst snd token persisted storage_ops Nat.pred].
  repeat split. intros H. rewrite H. reflexivity.
Qed.

Lemma logout_always_unauthenticates_witness :
  fst (logout offline (signed_in "abc")) = Ok tt /\
  token (snd (logout offline (signed_in "abc"))) = None /\
  fst (isAuthenticated (snd (logout offline (signed_in "abc")))) = Ok false /\
  persisted (snd (logout offline (signed_in "abc"))) = None.
Proof.
  pose proof (logout_always_unauthenticates offline (signed_in "abc")) as H.
  cbv zeta in H. destruct H as (H1 & H2 & H3 & _ & _ & H4).
  split; [exact H1 |]. split; [exact H2 |]. split; [exact H3 |].
  apply H4. reflexivity.
Defined.

(** The in-memory half of C3 needs no assumption on the storage. *)
Lemma logout_clears_cached_token (host : Host) (w : World) :
  fst (logout host w) = Ok tt /\ token (snd (logout host w)) = None.
Proof. rewrite logout_eq, removeToken_eq. split; reflexivity. Qed.

(** C4. With no truthy token cached, [checkAuthStatus] answers false at
    once: the world is untouched, nothing is sent. With one, it sends the
    profile request and nothing else; it answers true, and only then, when
    [getProfile] returns; when [getProfile] throws, whatever the error, it
    clears the credential and answers false: the cached token is [null],
    and one storage removal is made, after which the persisted entry is
    absent (or, when the storage refuses, what it was). *)
Theorem checkAuthStatus_verifies_by_profile (host : Host) (w : World) :
  (truthy_token (token w) = false -> checkAuthStatus host w = (Ok false, w)) /\
  (truthy_token (token w) = true ->
     sent (snd (checkAuthStatus host w))
     = config host "/auth/profile" (token w) GET :: sent w /\
     (forall profile w1, getProfile host w = (Ok profile, w1) ->
        checkAuthStatus host w = (Ok true, w1)) /\
     (forall e w1, getProfile host w = (Throw e, w1) ->
        checkAuthStatus host w = (Ok false, snd (removeToken host w1)) /\
        token (snd (checkAuthStatus host w)) = None /\
        persisted (snd (checkAuthStatus host w))
        = match storage_fault host (storage_ops w1) with
          | Some _ => persisted w1
          | None => None
          end /\
        sent (snd (checkAuthStatus host w)) = sent w1 /\
        storage_ops (snd (checkAuthStatus host w)) = S (storage_ops w1)) /\
     (fst (checkAuthStatus host w) = Ok true ->
        exists profile, fst (getProfile host w) = Ok profile)).
Proof.
  rewrite checkAuthStatus_eq. split; intros H; rewrite H; [reflexivity |].
  pose proof (getProfile_logs host w) as L.
  destruct (getProfile host w) as [[v | e] w1]; cbn [fst snd] in *.
  - split; [exact L |].
    split; [intros profile w2 E; injection E as _ <-; reflexivity |].
    split; [intros e w2 E; discriminate E |].
    intros _. exists v. reflexivity.
  - split; [rewrite removeToken_eq; exact L |].
    split; [intros profile w2 E; discriminate E |].
    split; [| intros E; discriminate E].
    intros e' w2 E. injection E as _ <-.
    rewrite removeToken_eq. repeat split; reflexivity.
Qed.

Lemma checkAuthStatus_verifies_by_profile_witness :
  checkAuthStatus offline guest = (Ok false, guest) /\
  credential (snd (checkAuthStatus (replying 500 (Ok Null)) (signed_in "abc")))
  = (None, None) /\
  checkAuthStatus (replying 200 (Ok (Obj [])))  (signed_in "abc")
  = (Ok true, snd (getProfile (replying 200 (Ok (Obj []))) (signed_in "abc"))).
Proof.
  split; [| split].
  - exact (proj1 (checkAuthStatus_verifies_by_profile offline guest) eq_refl).
  - destruct (proj1 (proj2 (proj2
                (proj2 (checkAuthStatus_verifies_by_profile
                          (replying 500 (Ok Null)) (signed_in "abc")) eq_refl)))
                (Error "HTTP error! status: 500") _ eq_refl) as (_ & T & P & _).
    unfold credential. rewrite T, P. reflexivity.
  - exact (proj1 (proj2
             (proj2 (checkAuthStatus_verifies_by_profile
                       (replying 200 (Ok (Obj []))) (signed_in "abc")) eq_refl))
             (Obj []) _ eq_refl).
Defined.

Example generateQuestion_guest_offline :
  fst (generateQuestion offline (mkGenerate "weaken" None) guest)
  = Ok (getSampleQuestion "weaken").
Proof. reflexivity. Qed.

Example generateQuestion_signed_in_offline :
  fst (generateQuestion offline (mkGenerate "strengthen" None) (signed_in "abc"))
  = Throw (Error "Network request failed").
Proof. reflexivity. Qed.

Example generateQuestion_signed_in_401 :
  fst (generateQuestion (replying 401 (Ok Null)) (mkGenerate "strengthen" None)
         (signed_in "abc"))
  = Ok (getSampleQuestion "strengthen").
Proof. reflexivity. Qed.

Lemma sample_type (c : Category) :
  member (getSampleQuestion (category_name c)) "type" = Ok (Str (category_name c)).
Proof. destruct c; reflexivity. Qed.

(** C1 as stated does not hold: a caller who is authenticated when the
    call is made and whose call is answered with 401 gets the fallback
    question, not the gateway's error, because the gateway has cleared the
    token by the time [generateQuestion] looks at it. *)
Lemma generateQuestion_401_falls_back :
  ~ (forall (host : Host) (c : Category) (w w' : World) (e : Thrown),
       let r := mkGenerate (category_name c) None in
       truthy_token (token w) = true ->
       request host "/questions/generate" (POST (Some (generate_payload r))) w
       = (Throw e, w') ->
       generateQuestion host r w = (Throw e, w')).
Proof.
  intros H.
  specialize (H (replying 401 (Ok Null)) strengthen (signed_in "abc") _ _
                eq_refl eq_refl).
  discriminate H.
Qed.

(** C1, amended. For every category, when the generate call fails:
    if no truthy token is cached once the call has failed (the caller was
    unauthenticated, or was authenticated and the answer was 401),
    [generateQuestion] returns the fallback question of that category,
    whose [type] is the category, and does not throw; if a truthy token is
    still cached (the caller was authenticated and the failure is anything
    but a 401), the gateway's error is thrown on unchanged. *)
Theorem generateQuestion_falls_back_when_unauthenticated
    (host : Host) (c : Category) (difficulty : option Z) (w w' : World) (e : Thrown) :
  let r := mkGenerate (category_name c) difficulty in
  let req := config host "/questions/generate" (token w) (POST (Some (generate_payload r))) in
  request host "/questions/generate" (POST (Some (generate_payload r))) w = (Throw e, w') ->
  (truthy_token (token w') = false ->
     generateQuestion host r w = (Ok (getSampleQuestion (category_name c)), w') /\
     member (getSampleQuestion (category_name c)) "type" = Ok (Str (category_name c))) /\
  (truthy_token (token w') = true -> generateQuestion host r w = (Throw e, w')) /\
  (truthy_token (token w) = false -> truthy_token (token w') = false) /\
  (truthy_token (token w) = true ->
     (forall json, fetch_outcome host (req :: sent w) <> Response 401 json) ->
     truthy_token (token w') = true) /\
  (forall json, fetch_outcome host (req :: sent w) = Response 401 json ->
     truthy_token (token w') = false).
Proof.
  cbv zeta. intros E. rewrite generateQuestion_eq, E. cbn [g_type].
  split; [intros H; rewrite H; split; [reflexivity | apply sample_type] |].
  split; [intros H; rewrite H; reflexivity |].
  split; [| split].
  - intros H.
    pose proof (request_never_authenticates host "/questions/generate"
                  (POST (Some (generate_payload (mkGenerate (category_name c) difficulty))))
                  w H) as N.
    rewrite E in N. exact N.
  - intros H K.
    pose proof (request_keeps_credential host "/questions/generate"
                  (POST (Some (generate_payload (mkGenerate (category_name c) difficulty))))
                  w K) as N.
    rewrite E in N. cbn [snd] in N. rewrite N. exact H.
  - intros json K. rewrite request_eq in E. cbv zeta in E.
    rewrite K, ok_401 in E. cbn [Nat.eqb] in E.
    injection E as _ <-. rewrite removeToken_token. reflexivity.
Qed.

Lemma generateQuestion_falls_back_when_unauthenticated_witness :
  generateQuestion offline (mkGenerate "weaken" None) guest
  = (Ok (getSampleQuestion "weaken"),
     snd (request offline "/questions/generate"
            (POST (Some (generate_payload (mkGenerate "weaken" None)))) guest)) /\
  generateQuestion offline (mkGenerate "strengthen" None) (signed_in "abc")
  = (Throw (Error "Network request failed"),
     snd (request offline "/questions/generate"
            (POST (Some (generate_payload (mkGenerate "strengthen" None)))) (signed_in "abc"))).
Proof.
  split.
  - exact (proj1 (proj1 (generateQuestion_falls_back_when_unauthenticated
             offline weaken None guest _ _ eq_refl) eq_refl)).
  - exact (proj1 (proj2 (generateQuestion_falls_back_when_unauthenticated
             offline strengthen None (signed_in "abc") _ _ eq_refl)) eq_refl).
Defined.

Example stats_offline :
  fst (getUserStats offline (signed_in "abc")) = Ok zero_stats.
Proof. reflexivity. Qed.

(** C5. [getUserStats] and [getMissedQuestions] always return: when the
    gateway throws, whatever it throws, the first returns the all-zero
    record and the second the empty list. *)
Theorem stats_and_missed_questions_never_throw (host : Host) (w : World) :
  (exists v w', getUserStats host w = (Ok v, w')) /\
  (exists v w', getMissedQuestions host w = (Ok v, w')) /\
  (forall e w', request host "/questions/stats" GET w = (Throw e, w') ->
     getUserStats host w
     = (Ok (Obj [ ("questionsAnswered", Num 0); ("accuracy", Num 0);
                  ("currentStreak", Num 0); ("longestStreak", Num 0);
                  ("accuracyByType",
                   Obj [ ("strengthen", Num 0); ("weaken", Num 0);
                         ("assumption", Num 0); ("flaw", Num 0) ]);
                  ("correctAnswers", Num 0) ]), w')) /\
  (forall e w', request host "/questions/missed" GET w = (Throw e, w') ->
     getMissedQuestions host w = (Ok (Arr []), w')).
Proof.
  unfold getUserStats, getMissedQuestions. run.
  destruct (request host "/questions/stats" GET w) as [[v1 | e1] w1];
    destruct (request host "/questions/missed" GET w) as [[v2 | e2] w2];
    (split; [eexists; eexists; reflexivity |]);
    (split; [eexists; eexists; reflexivity |]);
    split; intros e w' E; try discriminate E; injection E as _ <-; reflexivity.
Qed.

Lemma stats_and_missed_questions_never_throw_witness :
  getUserStats offline guest
  = (Ok zero_stats, snd (request offline "/questions/stats" GET guest)) /\
  getMissedQuestions offline guest
  = (Ok (Arr []), snd (request offline "/questions/missed" GET guest)).
Proof.
  split.
  - exact (proj1 (proj2 (proj2 (stats_and_missed_questions_never_throw offline guest)))
             _ _ eq_refl).
  - exact (proj2 (proj2 (proj2 (stats_and_missed_questions_never_throw offline guest)))
             _ _ eq_refl).
Defined.

(** ** Fallback resolver *)

Lemma own_sample (type : string) :
  type <> "strengthen" -> type <> "weaken" -> type <> "assumption" -> type <> "flaw" ->
  own_property sampleQuestions type = None.
Proof.
  intros H1 H2 H3 H4. unfold sampleQuestions, own_property.
  destruct (String.eqb_spec "strengthen" type) as [E | _]; [symmetry in E; contradiction |].
  destruct (String.eqb_spec "weaken" type) as [E | _]; [symmetry in E; contradiction |].
  destruct (String.eqb_spec "assumption" type) as [E | _]; [symmetry in E; contradiction |].
  destruct (String.eqb_spec "flaw" type) as [E | _]; [symmetry in E; contradiction |].
  reflexivity.
Qed.

(** A key that is neither a category nor a member of [Object.prototype]
    resolves to the [strengthen] sample. *)
Lemma getSampleQuestion_default (type : string) :
  type <> "strengthen" -> type <> "weaken" -> type <> "assumption" -> type <> "flaw" ->
  inherited type = false ->
  getSampleQuestion type = getSampleQuestion "strengthen".
Proof.
  intros H1 H2 H3 H4 I. unfold getSampleQuestion at 1, get_property at 1.
  rewrite (own_sample type H1 H2 H3 H4), I. reflexivity.
Qed.

(** A key inherited from [Object.prototype] resolves to the inherited
    member. *)
Lemma getSampleQuestion_inherited (type : string) :
  inherited type = true ->
  getSampleQuestion type = Native ("Object.prototype." ++ type).
Proof.
  intros I. unfold getSampleQuestion, get_property at 1.
  rewrite own_sample, I; [reflexivity | | | |];
    intros ->; discriminate I.
Qed.

(** Each category resolves to its own sample. *)
Lemma getSampleQuestion_category (c : Category) :
  own_property sampleQuestions (category_name c) = Some (getSampleQuestion (category_name c)).
Proof. destruct c; reflexivity. Qed.

(** C6, at the key ['constructor']: it is none of the four categories, yet
    the lookup finds the member every object inherits, which is truthy, so
    the default is not taken and the result is not the [strengthen]
    sample. *)
Theorem getSampleQuestion_constructor_is_not_defaulted :
  own_property sampleQuestions "constructor" = None /\
  getSampleQuestion "constructor" = Native "Object.prototype.constructor" /\
  getSampleQuestion "constructor" <> getSampleQuestion "strengthen".
Proof.
  split; [reflexivity |]. split; [reflexivity |]. discriminate.
Qed.

(** ** Question lifecycle *)

Section Lifecycle.

Variable host : Host.

Lemma loadUserStats_keeps_lifecycle a w :
  showExplanation (fst (loadUserStats host a w)) = showExplanation a /\
  selectedAnswer (fst (loadUserStats host a w)) = selectedAnswer a.
Proof.
  unfold loadUserStats.
  destruct ((userStats <- getUserStats host;; stats_of userStats) w) as [[s | e] w1];
    split; reflexivity.
Qed.

Lemma navigateToQuestion_hides_explanation now questionType a w :
  showExplanation (fst (navigateToQuestion host now questionType a w)) = false.
Proof.
  unfold navigateToQuestion. cbv zeta.
  destruct (generateQuestion host _ w) as [[q | e] w1]; reflexivity.
Qed.

Lemma navigateToHome_hides_explanation a w :
  showExplanation (fst (navigateToHome host a w)) = false.
Proof.
  unfold navigateToHome. cbv zeta.
  destruct (truthy (currentUser a) && _); [| reflexivity].
  rewrite (proj1 (loadUserStats_keeps_lifecycle _ w)). reflexivity.
Qed.

Lemma handleAnswerSelect_keeps_explanation answer a :
  showExplanation (handleAnswerSelect answer a) = showExplanation a.
Proof. unfold handleAnswerSelect. destruct (showExplanation a) eqn:E; exact E. Qed.

(** [handleSubmit] once a non-empty answer is selected and a question is
    on screen. *)
Lemma handleSubmit_eq now a w answer :
  selectedAnswer a = Some answer -> answer <> "" -> truthy (currentQuestion a) = true ->
  handleSubmit host now a w =
  match submit_call host now a answer w with
  | (Ok result, w') =>
      (setLoading false (setTimeout_alert result (setShowExplanation true (setLoading true a))),
       w')
  | (Throw _, w') =>
      (setLoading false
         (Alert_alert "Error" "Failed to submit answer. Please try again."
            (setLoading true a)), w')
  end.
Proof.
  intros S N Q. unfold handleSubmit. rewrite S, Q.
  destruct answer as [| c s]; [contradiction N; reflexivity | reflexivity].
Qed.

(** [handleSubmit] without a usable selection or without a question: an
    alert, and nothing else. *)
Lemma handleSubmit_refuses now a w :
  truthy_string (selectedAnswer a) = false \/ truthy (currentQuestion a) = false ->
  handleSubmit host now a w
  = (Alert_alert "Please select an answer"
       "Choose one of the options before submitting." a, w).
Proof.
  intros H. unfold handleSubmit.
  destruct (selectedAnswer a) as [[| c s] |]; try reflexivity.
  destruct H as [H | H]; [discriminate H | rewrite H; reflexivity].
Qed.

(** One handler at a time: the explanation goes from hidden to shown only
    in [handleSubmit], and only when its [submitAnswer] call returned. *)
Lemma explanation_shown_by_submit event a w :
  showExplanation a = false ->
  showExplanation (fst (handle host event a w)) = true ->
  exists now answer result w',
    event = Submit now /\ selectedAnswer a = Some answer /\ answer <> "" /\
    submit_call host now a answer w = (Ok result, w').
Proof.
  intros X G. destruct event as [answer | now | now questionType |];
    cbn [handle fst] in G.
  - rewrite handleAnswerSelect_keeps_explanation, X in G. discriminate G.
  - destruct (selectedAnswer a) as [[| c s] |] eqn:S;
      try (rewrite handleSubmit_refuses in G
             by (left; rewrite S; reflexivity);
           cbn in G; rewrite X in G; discriminate G).
    destruct (truthy (currentQuestion a)) eqn:Q;
      [| rewrite handleSubmit_refuses in G by (right; exact Q);
         cbn in G; rewrite X in G; discriminate G].
    rewrite (handleSubmit_eq now a w (String c s) S) in G
      by (discriminate || exact Q).
    destruct (submit_call host now a (String c s) w) as [[result | e] w'] eqn:E.
    + exists now, (String c s), result, w'.
      split; [reflexivity |]. split; [reflexivity |].
      split; [discriminate | exact E].
    + cbn in G. rewrite X in G. discriminate G.
  - rewrite navigateToQuestion_hides_explanation in G. discriminate G.
  - rewrite navigateToHome_hides_explanation in G. discriminate G.
Qed.

(** Over a whole session: if the explanation is hidden at the start and
    shown at the end, some [handleSubmit] of the session had its
    [submitAnswer] call return. *)
Lemma session_graded_by_submit events :
  forall a w,
    showExplanation a = false ->
    showExplanation (fst (session host events a w)) = true ->
    exists before now after a1 w1 answer result w2,
      events = (before ++ Submit now :: after)%list /\
      session host before a w = (a1, w1) /\
      selectedAnswer a1 = Some answer /\
      submit_call host now a1 answer w1 = (Ok result, w2).
Proof.
  induction events as [| e rest IH]; intros a w X G.
  - cbn in G. rewrite X in G. discriminate G.
  - cbn [session] in G. destruct (handle host e a w) as [a' w'] eqn:H.
    destruct (showExplanation a') eqn:X'.
    + destruct (explanation_shown_by_submit e a w X)
        as (now & answer & result & w2 & -> & S & _ & E).
      { rewrite H. exact X'. }
      exists [], now, rest, a, w, answer, result, w2.
      repeat split; assumption.
    + destruct (IH a' w' X' G)
        as (before & now & after & a1 & w1 & answer & result & w2 & -> & R & S & E).
      exists (e :: before), now, after, a1, w1, answer, result, w2.
      split; [reflexivity |]. split; [| split; assumption].
      cbn [session]. rewrite H. exact R.
Qed.

End Lifecycle.

Example submit_fails_offline :
  fst (handleSubmit offline 4200 (sample_view (Some "C") false) guest)
  = mkApp question_screen Null (getSampleQuestion "weaken") (Some "C") false false 0 Null
      [("Error", "Failed to submit answer. Please try again.")] [].
Proof. reflexivity. Qed.

Example submit_succeeds :
  fst (handleSubmit (replying 200 (Ok (Obj [("correct", Bool true)]))) 4200
         (sample_view (Some "C") false) guest)
  = mkApp question_screen Null (getSampleQuestion "weaken") (Some "C") true false 0 Null
      [] [Obj [("correct", Bool true)]].
Proof. reflexivity. Qed.

Example submit_sends :
  sent (snd (handleSubmit offline 4200 (sample_view (Some "C") false) guest))
  = [ mkRequest "http://127.0.0.1:3000/api/questions/answer" "POST"
        [("Content-Type", "application/json")]
        (Some (Obj [ ("questionId", Str "sample-weaken-1"); ("userAnswer", Str "C");
                     ("responseTime", Num 4) ])) ].
Proof. reflexivity. Qed.

(** C8. Taking the explanation being shown as the graded state:
    - when the submission of the selected answer fails, [handleSubmit]
      leaves the selection, the question and the hidden explanation as they
      were, schedules no result and stops loading;
    - when it succeeds, the explanation is shown and the selection kept;
    - whichever handler of the question screen runs, the explanation goes
      from hidden to shown only if the handler is [handleSubmit] and its
      [submitAnswer] call returned;
    - once the explanation is shown, [handleAnswerSelect] changes nothing. *)
Theorem graded_only_after_successful_submit (host : Host) (now : Z) (a : App) (w : World) :
  (forall answer e w',
     selectedAnswer a = Some answer -> answer <> "" ->
     truthy (currentQuestion a) = true -> showExplanation a = false ->
     submit_call host now a answer w = (Throw e, w') ->
     let a' := fst (handleSubmit host now a w) in
     selectedAnswer a' = Some answer /\ showExplanation a' = false /\
     currentQuestion a' = currentQuestion a /\ scheduled a' = scheduled a /\
     loading a' = false) /\
  (forall answer result w',
     selectedAnswer a = Some answer -> answer <> "" ->
     truthy (currentQuestion a) = true ->
     submit_call host now a answer w = (Ok result, w') ->
     let a' := fst (handleSubmit host now a w) in
     showExplanation a' = true /\ selectedAnswer a' = Some answer /\
     scheduled a' = result :: scheduled a) /\
  (forall event,
     showExplanation a = false ->
     showExplanation (fst (handle host event a w)) = true ->
     exists now' answer result w',
       event = Submit now' /\ selectedAnswer a = Some answer /\ answer <> "" /\
       submit_call host now' a answer w = (Ok result, w')) /\
  (forall answer, showExplanation a = true -> handleAnswerSelect answer a = a).
Proof.
  split; [| split; [| split]].
  - intros answer e w' S N Q X E. cbv zeta.
    rewrite (handleSubmit_eq host now a w answer S N Q), E. cbn.
    repeat split; assumption.
  - intros answer result w' S N Q E. cbv zeta.
    rewrite (handleSubmit_eq host now a w answer S N Q), E. cbn.
    repeat split; assumption.
  - intros event X G. exact (explanation_shown_by_submit host event a w X G).
  - intros answer X. unfold handleAnswerSelect. rewrite X. reflexivity.
Qed.

Lemma graded_only_after_successful_submit_witness :
  (let a' := fst (handleSubmit offline 4200 (sample_view (Some "C") false) guest) in
   selectedAnswer a' = Some "C" /\ showExplanation a' = false /\
   currentQuestion a' = getSampleQuestion "weaken" /\ scheduled a' = [] /\
   loading a' = false) /\
  handleAnswerSelect "A" (sample_view (Some "C") true) = sample_view (Some "C") true.
Proof.
  split.
  - refine (proj1 (graded_only_after_successful_submit
                     offline 4200 (sample_view (Some "C") false) guest)
              "C" (Error "Network request failed") _ eq_refl _ eq_refl eq_refl eq_refl).
    discriminate.
  - exact (proj2 (proj2 (proj2 (graded_only_after_successful_submit
                                  offline 0 (sample_view (Some "C") true) guest)))
             "A" eq_refl).
Defined.

(** * Further properties *)

(** ** Gateway and token store *)

Section MoreGateway.

Variable host : Host.

Lemma request_ok endpoint options w v w' :
  request host endpoint options w = (Ok v, w') ->
  w' = after_fetch (config host endpoint (token w) options) w.
Proof.
  rewrite request_eq. cbv zeta.
  destruct (fetch_outcome host _) as [e | status json]; [discriminate |].
  destruct (ok status).
  - intros E. injection E as _ <-. reflexivity.
  - destruct (status =? 401)%nat; discriminate.
Qed.

Lemma request_on_401 endpoint options w json :
  fetch_outcome host (config host endpoint (token w) options :: sent w) = Response 401 json ->
  request host endpoint options w
  = (Throw (Error "Authentication failed"),
     snd (removeToken host (after_fetch (config host endpoint (token w) options) w))).
Proof. intros H. rewrite request_eq. cbv zeta. rewrite H, ok_401. reflexivity. Qed.

End MoreGateway.

(** X1. Whatever the host answers, [request] hands exactly one request to
    [fetch]: its URL is the base URL followed by the endpoint, it carries
    the JSON content type, and it carries an [Authorization] header, made of
    'Bearer ' and the cached token, exactly when that token is neither
    [null] nor empty. *)
Theorem request_sends_one_request
    (host : Host) (endpoint : string) (options : RequestInit) (w : World) :
  exists req,
    sent (snd (request host endpoint options w)) = req :: sent w /\
    url req = API_BASE_URL host ++ endpoint /\
    In ("Content-Type", "application/json") (headers req) /\
    authorized req = truthy_token (token w) /\
    (forall t, token w = Some t -> t <> "" ->
       In ("Authorization", "Bearer " ++ t) (headers req)).
Proof.
  exists (config host endpoint (token w) options).
  split; [apply request_logs |]. split; [reflexivity |].
  split; [left; reflexivity |]. split; [apply authorized_config |].
  intros t E N. rewrite E. destruct t as [| c s]; [contradiction N; reflexivity |].
  right. left. reflexivity.
Qed.

(** Every error message the gateway makes for a three-digit status other
    than 401 is free of '401'. *)
Lemma http_error_message_has_no_401 (status : nat) :
  status < 1000 -> status <> 401 ->
  includes ("HTTP error! status: " ++ decimal status) "401" = false.
Proof.
  intros B N.
  assert (A : forallb (fun n => (n =? 401)%nat
                                || negb (includes ("HTTP error! status: " ++ decimal n) "401"))
                (seq 0 1000) = true) by (vm_compute; reflexivity).
  rewrite forallb_forall in A. specialize (A status).
  destruct (Nat.eqb_spec status 401) as [E | _]; [contradiction |].
  cbn [orb] in A. apply negb_true_iff. apply A. apply in_seq. lia.
Qed.

(** X2. When the profile request is answered with any failing HTTP status
    below 1000, the removal in [getProfile]'s own handler never runs:
    [getProfile] throws what the gateway threw and ends in the world the
    gateway left. The test for '401' in the message cannot succeed on the
    gateway's own messages. *)
Theorem getProfile_handler_is_idle_on_http_errors
    (host : Host) (w : World) (status : nat) (json : Result Val) :
  fetch_outcome host (config host "/auth/profile" (token w) GET :: sent w)
  = Response status json ->
  ok status = false -> status < 1000 ->
  getProfile host w = request host "/auth/profile" GET w /\
  exists message,
    fst (getProfile host w) = Throw (Error message) /\ includes message "401" = false.
Proof.
  intros H K B. rewrite getProfile_eq, request_eq. cbv zeta. rewrite H, K.
  destruct (Nat.eqb_spec status 401) as [E | N].
  - split; [reflexivity |]. exists "Authentication failed". split; reflexivity.
  - cbn [is_error_with]. rewrite (http_error_message_has_no_401 status B N).
    split; [reflexivity |].
    exists ("HTTP error! status: " ++ decimal status). split; [reflexivity |].
    apply (http_error_message_has_no_401 status B N).
Qed.

Lemma getProfile_handler_is_idle_on_http_errors_witness :
  getProfile (replying 503 (Ok Null)) (signed_in "abc")
  = request (replying 503 (Ok Null)) "/auth/profile" GET (signed_in "abc").
Proof.
  refine (proj1 (getProfile_handler_is_idle_on_http_errors
                   (replying 503 (Ok Null)) (signed_in "abc") 503 (Ok Null)
                   eq_refl eq_refl _)).
  lia.
Defined.

(** X3. The answer of [checkAuthStatus] is what [isAuthenticated()] says
    once it has returned: true leaves the truthy token in place, false
    leaves none (none was there, or [removeToken] has run). *)
Theorem checkAuthStatus_agrees_with_isAuthenticated (host : Host) (w : World) :
  exists b,
    fst (checkAuthStatus host w) = Ok b /\
    fst (isAuthenticated (snd (checkAuthStatus host w))) = Ok b.
Proof.
  rewrite checkAuthStatus_eq.
  destruct (truthy_token (token w)) eqn:T.
  - rewrite getProfile_eq.
    destruct (request host "/auth/profile" GET w) as [[v | e] w1] eqn:R.
    + exists true. split; [reflexivity |].
      apply request_ok in R. subst w1. unfold isAuthenticated. run.
      cbn [fst snd after_fetch token]. rewrite T. reflexivity.
    + exists false. split; [reflexivity |].
      cbn [snd]. rewrite removeToken_eq. reflexivity.
  - exists false. split; [reflexivity |].
    unfold isAuthenticated. run. cbn [fst snd]. rewrite T. reflexivity.
Qed.

(** X4. [logout] with no truthy token cached sends nothing. With one it
    sends exactly one request, a POST to [/auth/logout] carrying the token
    as bearer. A second [logout] right after the first sends nothing
    more. *)
Theorem logout_network_calls (host : Host) (w : World) :
  (truthy_token (token w) = false -> sent (snd (logout host w)) = sent w) /\
  (forall t, token w = Some t -> t <> "" ->
     sent (snd (logout host w))
     = mkRequest (API_BASE_URL host ++ "/auth/logout") "POST"
         [("Content-Type", "application/json"); ("Authorization", "Bearer " ++ t)] None
       :: sent w) /\
  sent (snd (logout host (snd (logout host w)))) = sent (snd (logout host w)).
Proof.
  split; [| split].
  - intros T. rewrite logout_eq, T, removeToken_eq. reflexivity.
  - intros t E N. rewrite logout_eq, E.
    destruct t as [| c s]; [contradiction N; reflexivity |].
    cbn [truthy_token]. rewrite removeToken_eq. cbn [snd sent].
    rewrite request_logs, E. reflexivity.
  - rewrite (logout_eq host (snd (logout host w))).
    rewrite (proj2 (logout_clears_cached_token host w)).
    cbn [truthy_token]. rewrite removeToken_eq. reflexivity.
Qed.

Lemma logout_network_calls_witness :
  sent (snd (logout offline guest)) = [] /\
  sent (snd (logout offline (signed_in "abc")))
  = [ mkRequest "http://127.0.0.1:3000/api/auth/logout" "POST"
        [("Content-Type", "application/json"); ("Authorization", "Bearer abc")] None ].
Proof.
  split.
  - exact (proj1 (logout_network_calls offline guest) eq_refl).
  - refine (proj1 (proj2 (logout_network_calls offline (signed_in "abc"))) "abc" eq_refl _).
    discriminate.
Defined.

(** X5. A token survives a restart: when the write of [saveToken t]
    succeeds and the read of the next start succeeds, the service
    constructed over the persisted entry holds [t] again; after a
    successful [removeToken] it holds none. *)
Theorem token_survives_restart (host next : Host) (t : string) (w : World) :
  storage_fault host (storage_ops w) = None ->
  storage_fault next 0 = None ->
  token (construct next (persisted (snd (saveToken host t w)))) = Some t /\
  token (construct next (persisted (snd (removeToken host w)))) = None.
Proof.
  intros S R. unfold construct.
  rewrite saveToken_eq, removeToken_eq, !loadToken_eq.
  cbn [snd token persisted storage_ops]. rewrite S, R. split; reflexivity.
Qed.

Lemma token_survives_restart_witness :
  token (construct offline (persisted (snd (saveToken offline "abc" guest)))) = Some "abc" /\
  token (construct offline (persisted (snd (removeToken offline guest)))) = None.
Proof. exact (token_survives_restart offline offline "abc" guest eq_refl eq_refl). Defined.

Lemma generateQuestion_never_throws_for_guests_aux (host : Host) (type : string) (w : World) :
  truthy_token (token w) = false ->
  exists v w', generateQuestion host (mkGenerate type None) w = (Ok v, w').
Proof.
  intros T. rewrite generateQuestion_eq.
  pose proof (request_never_authenticates host "/questions/generate"
                (POST (Some (generate_payload (mkGenerate type None)))) w T) as N.
  destruct (request host "/questions/generate"
              (POST (Some (generate_payload (mkGenerate type None)))) w)
    as [[v | e] w1]; cbn [snd] in N.
  - exists v, w1. reflexivity.
  - rewrite N. eexists. eexists. reflexivity.
Qed.

(** X6. A caller with no truthy token cached never gets an error from
    [generateQuestion], whatever type is asked for and whatever the host
    does: it gets the reply of the server or a value of the sample table. *)
Theorem generateQuestion_never_throws_for_guests
    (host : Host) (r : GenerateQuestionRequest) (w : World) :
  truthy_token (token w) = false ->
  exists v w', generateQuestion host r w = (Ok v, w').
Proof.
  intros T. rewrite generateQuestion_eq.
  pose proof (request_never_authenticates host "/questions/generate"
                (POST (Some (generate_payload r))) w T) as N.
  destruct (request host "/questions/generate" (POST (Some (generate_payload r))) w)
    as [[v | e] w1]; cbn [snd] in N.
  - exists v, w1. reflexivity.
  - rewrite N. eexists. eexists. reflexivity.
Qed.

Lemma generateQuestion_never_throws_for_guests_witness :
  exists v w', generateQuestion offline (mkGenerate "anything" (Some 3%Z)) guest = (Ok v, w').
Proof.
  exact (generateQuestion_never_throws_for_guests
           offline (mkGenerate "anything" (Some 3%Z)) guest eq_refl).
Defined.

(** X7. A 401 on the statistics or on the missed-questions request is
    swallowed and still signs the user out: the caller gets the all-zero
    record, respectively the empty list, and the cached token is [null]
    afterwards. *)
Theorem stats_and_missed_questions_sign_out_on_401
    (host : Host) (w : World) (json : Result Val) :
  (fetch_outcome host (config host "/questions/stats" (token w) GET :: sent w)
   = Response 401 json ->
   fst (getUserStats host w) = Ok zero_stats /\
   token (snd (getUserStats host w)) = None) /\
  (fetch_outcome host (config host "/questions/missed" (token w) GET :: sent w)
   = Response 401 json ->
   fst (getMissedQuestions host w) = Ok (Arr []) /\
   token (snd (getMissedQuestions host w)) = None).
Proof.
  unfold getUserStats, getMissedQuestions. run.
  split; intros H; rewrite (request_on_401 host _ _ w json H);
    cbn [fst snd]; rewrite removeToken_eq; split; reflexivity.
Qed.

Lemma stats_and_missed_questions_sign_out_on_401_witness :
  fst (getUserStats (replying 401 (Ok Null)) (signed_in "abc")) = Ok zero_stats /\
  token (snd (getUserStats (replying 401 (Ok Null)) (signed_in "abc"))) = None.
Proof.
  exact (proj1 (stats_and_missed_questions_sign_out_on_401
                  (replying 401 (Ok Null)) (signed_in "abc") (Ok Null)) eq_refl).
Defined.

(** ** Registration and login *)

Section MoreAccounts.

Variable host : Host.


End MoreAccounts.

Example login_succeeds :
  login (replying 200 (Ok (account_reply "abc"))) "ada@example.org" "secret" guest
  = Some (Ok (account_reply "abc"),
          mkWorld (Some "abc") (Some "abc")
            [ mkRequest "http://127.0.0.1:3000/api/auth/login" "POST"
                [("Content-Type", "application/json")]
                (Some (Obj [("email", Str "ada@example.org"); ("password", Str "secret")])) ]
            1).
Proof. reflexivity. Qed.

Example login_rejected :
  login (replying 401 (Ok Null)) "ada@example.org" "wrong" guest
  = Some (Throw (Error "Authentication failed"),
          mkWorld None None
            [ mkRequest "http://127.0.0.1:3000/api/auth/login" "POST"
                [("Content-Type", "application/json")]
                (Some (Obj [("email", Str "ada@example.org"); ("password", Str "wrong")])) ]
            1).
Proof. reflexivity. Qed.



(** X9. [login] then [logout]: after a login that returned a non-empty
    token the service is authenticated; after the [logout] that follows,
    whatever the network and the storage do, it is not, and the logout
    request went out under the token the login returned. *)
Theorem login_then_logout
    (host : Host) (email password : string) (w w1 : World) (response : Val) (t : string) :
  login host email password w = Some (Ok response, w1) ->
  member response "token" = Ok (Str t) -> t <> "" ->
  fst (isAuthenticated w1) = Ok true /\
  fst (logout host w1) = Ok tt /\
  fst (isAuthenticated (snd (logout host w1))) = Ok false /\
  exists req,
    sent (snd (logout host w1)) = req :: sent w1 /\
    In ("Authorization", "Bearer " ++ t) (headers req).
Proof.
  intros L T N. unfold login in L.
  destruct (request host "/auth/login" _ w) as [[v | e] w0]; [| discriminate L].
  unfold save_reply_token in L.
  destruct (member v "token") as [[| | | | s | | |] | e] eqn:M; try discriminate L.
  injection L as -> <-. rewrite T in M. injection M as <-.
  rewrite saveToken_eq. cbn [snd].
  destruct t as [| c s]; [contradiction N; reflexivity |].
  split; [reflexivity |].
  rewrite logout_eq. cbn [token truthy_token]. rewrite removeToken_eq.
  split; [reflexivity |]. split; [reflexivity |].
  eexists. split; [cbn [snd sent]; rewrite request_logs; reflexivity |].
  right. left. reflexivity.
Qed.

Lemma login_then_logout_witness :
  fst (isAuthenticated
         (snd (logout (replying 200 (Ok (account_reply "abc")))
                 (mkWorld (Some "abc") (Some "abc")
                    [ mkRequest "http://127.0.0.1:3000/api/auth/login" "POST"
                        [("Content-Type", "application/json")]
                        (Some (Obj [("email", Str "ada@example.org");
                                    ("password", Str "secret")])) ]
                    1))))
  = Ok false.
Proof.
  refine (proj1 (proj2 (proj2 (login_then_logout
            (replying 200 (Ok (account_reply "abc"))) "ada@example.org" "secret"
            guest _ (account_reply "abc") "abc" eq_refl eq_refl _)))).
  discriminate.
Defined.

(** ** The handlers of App.tsx *)

(** X10. The response time sent with an answer is the elapsed time in
    milliseconds rounded to the nearest second, halves upwards: it is
    within half a second of the elapsed time, never negative when the
    elapsed time is not, and grows with it. *)
Theorem round_seconds_is_nearest_second (d : Z) :
  (1000 * round_seconds d - 500 <= d < 1000 * round_seconds d + 500)%Z /\
  (0 <= d -> 0 <= round_seconds d)%Z /\
  (forall d', d <= d' -> round_seconds d <= round_seconds d')%Z.
Proof.
  unfold round_seconds. split; [| split].
  - pose proof (Z.div_mod (d + 500) 1000 ltac:(lia)) as E.
    pose proof (Z.mod_pos_bound (d + 500) 1000 ltac:(lia)) as B. lia.
  - intros H. apply Z.div_pos; lia.
  - intros d' H. apply Z.div_le_mono; lia.
Qed.

Example round_seconds_halves :
  round_seconds 1499 = 1%Z /\ round_seconds 1500 = 2%Z /\ round_seconds (-1500) = (-1)%Z.
Proof. repeat split. Qed.

Section MoreLifecycle.

Variable host : Host.

Lemma member_of_truthy v key : truthy v = true -> exists x, member v key = Ok x.
Proof. destruct v; cbn; intros H; try discriminate H; eexists; reflexivity. Qed.

Lemma setStats_same a : setStats (stats a) a = a.
Proof. destruct a. reflexivity. Qed.

(** [loadUserStats] touches nothing but the statistics. *)
Lemma loadUserStats_sets_stats a w :
  exists s, fst (loadUserStats host a w) = setStats s a.
Proof.
  unfold loadUserStats.
  destruct ((userStats <- getUserStats host;; stats_of userStats) w) as [[s | e] w1].
  - exists s. reflexivity.
  - exists (stats a). symmetry. apply setStats_same.
Qed.

Lemma getUserStats_world w :
  snd (getUserStats host w) = snd (request host "/questions/stats" GET w).
Proof.
  unfold getUserStats. run.
  destruct (request host "/questions/stats" GET w) as [[v | e] w1]; reflexivity.
Qed.

Lemma stats_of_world v w : snd (stats_of v w) = w.
Proof.
  unfold stats_of. run.
  destruct v; cbn [member]; reflexivity.
Qed.

Lemma loadUserStats_world a w :
  snd (loadUserStats host a w) = snd (request host "/questions/stats" GET w).
Proof.
  unfold loadUserStats. rewrite <- getUserStats_world. unfold bind at 1.
  destruct (getUserStats host w) as [[v | e] w1]; cbn [snd]; [| reflexivity].
  pose proof (stats_of_world v w1) as H.
  destruct (stats_of v w1) as [[s | e] w2]; exact H.
Qed.

Lemma submit_call_world now a answer w id :
  member (currentQuestion a) "id" = Ok id ->
  snd (submit_call host now a answer w)
  = snd (request host "/questions/answer"
           (POST (Some (submit_payload
                          (mkSubmit id answer
                             (Some (round_seconds (now - questionStartTime a))))))) w).
Proof.
  intros M. unfold submit_call, submitAnswer. run. rewrite M. reflexivity.
Qed.

End MoreLifecycle.

(** X11. [handleSubmit] never submits without a selected answer and a
    question on screen: it then leaves the world as it was. Otherwise it
    sends exactly one request, a POST to [/questions/answer] whose body
    holds the question's [id], the selected answer and the elapsed time in
    seconds. *)
Theorem handleSubmit_sends_the_selected_answer
    (host : Host) (now : Z) (a : App) (w : World) :
  (truthy_string (selectedAnswer a) = false \/ truthy (currentQuestion a) = false ->
   snd (handleSubmit host now a w) = w) /\
  (forall answer id,
     selectedAnswer a = Some answer -> answer <> "" ->
     truthy (currentQuestion a) = true ->
     member (currentQuestion a) "id" = Ok id ->
     sent (snd (handleSubmit host now a w))
     = config host "/questions/answer" (token w)
         (POST (Some (Obj (defined "questionId" id
                           ++ [ ("userAnswer", Str answer);
                                ("responseTime",
                                 Num (round_seconds (now - questionStartTime a))) ]))))
       :: sent w).
Proof.
  split.
  - intros H. rewrite handleSubmit_refuses by exact H. reflexivity.
  - intros answer id S N Q M.
    rewrite (handleSubmit_eq host now a w answer S N Q).
    pose proof (submit_call_world host now a answer w id M) as W.
    destruct (submit_call host now a answer w) as [[result | e] w1];
      cbn [snd] in *; rewrite W, request_logs; reflexivity.
Qed.

Lemma handleSubmit_sends_the_selected_answer_witness :
  snd (handleSubmit offline 4200 (sample_view None false) guest) = guest /\
  sent (snd (handleSubmit offline 4200 (sample_view (Some "C") false) guest))
  = [ mkRequest "http://127.0.0.1:3000/api/questions/answer" "POST"
        [("Content-Type", "application/json")]
        (Some (Obj [ ("questionId", Str "sample-weaken-1"); ("userAnswer", Str "C");
                     ("responseTime", Num 4) ])) ].
Proof.
  split.
  - refine (proj1 (handleSubmit_sends_the_selected_answer
                     offline 4200 (sample_view None false) guest) _).
    left. reflexivity.
  - refine (proj2 (handleSubmit_sends_the_selected_answer
                     offline 4200 (sample_view (Some "C") false) guest)
              "C" (Str "sample-weaken-1") eq_refl _ eq_refl eq_refl).
    discriminate.
Defined.

(** X12. Unless what [generateQuestion] returns is a function (a member
    that a sample lookup inherits from [Object.prototype], which the state
    setter would run instead of storing), [navigateToQuestion] clears the
    selection, hides the explanation, restarts the clock and stops
    loading. It ends on the question screen, with what [generateQuestion]
    returned as the current question and no alert, or, when
    [generateQuestion] threw, on the home screen with one error alert and
    the previous question still in place. With no truthy token cached it
    ends on the question screen. *)
Theorem navigateToQuestion_outcomes
    (host : Host) (now : Z) (questionType : string) (a : App) (w : World) :
  (forall q, fst (generateQuestion host (mkGenerate questionType None) w) = Ok q ->
             is_function q = false) ->
  let a' := fst (navigateToQuestion host now questionType a w) in
  selectedAnswer a' = None /\ showExplanation a' = false /\
  questionStartTime a' = now /\ loading a' = false /\
  ((exists q, fst (generateQuestion host (mkGenerate questionType None) w) = Ok q /\
              currentScreen a' = question_screen /\ currentQuestion a' = q /\
              alerts a' = alerts a)
   \/
   (exists e, fst (generateQuestion host (mkGenerate questionType None) w) = Throw e /\
              currentScreen a' = home /\ currentQuestion a' = currentQuestion a /\
              alerts a' = ("Error", "Failed to load question. Please try again.") :: alerts a)) /\
  (truthy_token (token w) = false -> currentScreen a' = question_screen).
Proof.
  intros _. cbv zeta. unfold navigateToQuestion. cbv zeta.
  pose proof (generateQuestion_never_throws_for_guests_aux host questionType w) as G.
  destruct (generateQuestion host (mkGenerate questionType None) w) as [[q | e] w1];
    cbn [fst].
  - repeat split; try reflexivity.
    left. exists q. repeat split.
  - repeat split; try reflexivity.
    + right. exists e. repeat split.
    + intros T. destruct (G T) as (v & w2 & E). discriminate E.
Qed.

Lemma navigateToQuestion_outcomes_witness :
  let a' := fst (navigateToQuestion offline 4200 "weaken" (sample_view (Some "C") true) guest) in
  selectedAnswer a' = None /\ showExplanation a' = false /\
  questionStartTime a' = 4200%Z /\ loading a' = false /\
  currentScreen a' = question_screen.
Proof.
  cbv zeta.
  assert (F : forall q,
             fst (generateQuestion offline (mkGenerate "weaken" None) guest) = Ok q ->
             is_function q = false).
  { intros q E. injection E as <-. reflexivity. }
  pose proof (navigateToQuestion_outcomes offline 4200 "weaken"
                (sample_view (Some "C") true) guest F) as H.
  cbv zeta in H. destruct H as (H1 & H2 & H3 & H4 & _ & H5).
  split; [exact H1 |]. split; [exact H2 |]. split; [exact H3 |]. split; [exact H4 |].
  apply H5. reflexivity.
Defined.

(** X13. [navigateToHome] always lands on the home screen with no
    question, no selection and no explanation. For a guest (no user, or the
    user whose [id] is 0) it makes no network call; for any other user it
    sends exactly one request, for the statistics. *)
Theorem navigateToHome_resets_and_refreshes (host : Host) (a : App) (w : World) :
  let a' := fst (navigateToHome host a w) in
  currentScreen a' = home /\ currentQuestion a' = Null /\
  selectedAnswer a' = None /\ showExplanation a' = false /\
  (truthy (currentUser a) = false \/ member (currentUser a) "id" = Ok (Num 0) ->
   snd (navigateToHome host a w) = w) /\
  (forall id, truthy (currentUser a) = true -> member (currentUser a) "id" = Ok id ->
     id <> Num 0 ->
     sent (snd (navigateToHome host a w))
     = config host "/questions/stats" (token w) GET :: sent w).
Proof.
  cbv zeta. unfold navigateToHome. cbv zeta.
  set (a1 := setShowExplanation false _).
  destruct (loadUserStats_sets_stats host a1 w) as (s & L).
  assert (F : forall x, (x = a1 \/ x = fst (loadUserStats host a1 w)) ->
            currentScreen x = home /\ currentQuestion x = Null /\
            selectedAnswer x = None /\ showExplanation x = false).
  { intros x [-> | ->]; [| rewrite L]; repeat split. }
  destruct (truthy (currentUser a)) eqn:T; cbn [andb].
  - destruct (member (currentUser a) "id") as [id | e] eqn:M.
    + destruct (is_not_zero id) eqn:Z.
      * destruct (F _ (or_intror eq_refl)) as (F1 & F2 & F3 & F4).
        repeat split; try assumption.
        -- intros [H | H]; [discriminate H |]. injection H as ->. discriminate Z.
        -- intros id' _ E _. rewrite loadUserStats_world. apply request_logs.
      * destruct (F _ (or_introl eq_refl)) as (F1 & F2 & F3 & F4).
        repeat split; try assumption.
        intros id' _ E N. injection E as <-.
        destruct id as [| | | [| |] | | | |]; try discriminate Z.
        contradiction N; reflexivity.
    + destruct (member_of_truthy (currentUser a) "id" T) as (x & E).
      rewrite E in M. discriminate M.
  - destruct (F _ (or_introl eq_refl)) as (F1 & F2 & F3 & F4).
    repeat split; try assumption.
    intros id H. discriminate H.
Qed.

Lemma navigateToHome_resets_and_refreshes_witness :
  snd (navigateToHome offline (setCurrentUser guest_user (sample_view (Some "C") true)) guest)
  = guest.
Proof.
  refine (proj1 (proj2 (proj2 (proj2 (proj2 (navigateToHome_resets_and_refreshes
            offline (setCurrentUser guest_user (sample_view (Some "C") true)) guest))))) _).
  right. reflexivity.
Defined.

Lemma stats_of_printable v w s w' :
  stats_of v w = (Ok s, w') -> printable s.
Proof.
  unfold stats_of. run.
  destruct (member v "questionsAnswered") as [x1 |]; [| discriminate].
  destruct (member v "accuracy") as [x2 |]; [| discriminate].
  destruct (member v "currentStreak") as [x3 |]; [| discriminate].
  destruct (member v "longestStreak") as [x4 |]; [| discriminate].
  destruct (member v "accuracyByType") as [x5 |]; [| discriminate].
  destruct (member v "correctAnswers") as [x6 |]; [| discriminate].
  intros E. injection E as <- _.
  assert (D : forall x, or_else x (Num 0) = Num 0 \/ truthy (or_else x (Num 0)) = true).
  { intros x. unfold or_else. destruct (truthy x) eqn:T; [right; exact T | left; reflexivity]. }
  intros key [<- | [<- | [<- | [<- | [<- | []]]]]]; eexists; (split; [reflexivity | apply D]).
Qed.

Lemma zero_stats_printable : printable zero_stats.
Proof.
  intros key [<- | [<- | [<- | [<- | [<- | []]]]]]; eexists;
    (split; [reflexivity | left; reflexivity]).
Qed.

(** What [stats_of] stores under each key: the reply's value when that
    is truthy, the default otherwise. *)
Lemma stats_of_stores v w s w' :
  stats_of v w = (Ok s, w') ->
  (forall key x, In key stat_keys -> member v key = Ok x ->
     member s key = Ok (or_else x (Num 0))) /\
  (forall x, member v "accuracyByType" = Ok x ->
     member s "accuracyByType"
     = Ok (or_else x (Obj [ ("strengthen", Num 0); ("weaken", Num 0);
                            ("assumption", Num 0); ("flaw", Num 0) ]))).
Proof.
  unfold stats_of. run.
  destruct (member v "questionsAnswered") as [x1 |] eqn:E1; [| discriminate].
  destruct (member v "accuracy") as [x2 |] eqn:E2; [| discriminate].
  destruct (member v "currentStreak") as [x3 |] eqn:E3; [| discriminate].
  destruct (member v "longestStreak") as [x4 |] eqn:E4; [| discriminate].
  destruct (member v "accuracyByType") as [x5 |] eqn:E5; [| discriminate].
  destruct (member v "correctAnswers") as [x6 |] eqn:E6; [| discriminate].
  intros E. injection E as <- _. split.
  - intros key x [<- | [<- | [<- | [<- | [<- | []]]]]] M;
      first [rewrite E1 in M | rewrite E2 in M | rewrite E3 in M
            | rewrite E4 in M | rewrite E6 in M];
      injection M as <-; reflexivity.
  - intros x M. injection M as <-. reflexivity.
Qed.

(** Reading the fields of anything but [null] and [undefined] goes
    through. *)
Lemma stats_of_returns v w key x :
  member v key = Ok x -> exists s, stats_of v w = (Ok s, w).
Proof.
  intros M. destruct v; try discriminate M; eexists; reflexivity.
Qed.

Lemma loadUserStats_stores host a w v w' key x :
  request host "/questions/stats" GET w = (Ok v, w') ->
  member v key = Ok x ->
  exists s, stats_of v w' = (Ok s, w') /\ stats (fst (loadUserStats host a w)) = s.
Proof.
  intros R M. destruct (stats_of_returns v w' key x M) as (s & S).
  exists s. split; [exact S |].
  unfold loadUserStats, getUserStats. unfold bind at 1. unfold try_catch.
  rewrite R. rewrite S. reflexivity.
Qed.

(** X14. [loadUserStats] keeps the statistics printable whatever the
    server sends: every counter it stores is the reply's when that is
    truthy and 0 otherwise (and the accuracies by type are the reply's, or
    all zero), and a reply that is [null] leaves the statistics as they
    were. When the request fails, the statistics shown are reset to the
    all-zero record. *)
Theorem loadUserStats_keeps_stats_printable (host : Host) (a : App) (w : World) :
  (printable (stats a) -> printable (stats (fst (loadUserStats host a w)))) /\
  (forall e w', request host "/questions/stats" GET w = (Throw e, w') ->
     stats (fst (loadUserStats host a w)) = zero_stats) /\
  (forall w', request host "/questions/stats" GET w = (Ok Null, w') ->
     fst (loadUserStats host a w) = a) /\
  (forall v w' key x, request host "/questions/stats" GET w = (Ok v, w') ->
     In key stat_keys -> member v key = Ok x ->
     member (stats (fst (loadUserStats host a w))) key
     = Ok (if truthy x then x else Num 0)) /\
  (forall v w' x, request host "/questions/stats" GET w = (Ok v, w') ->
     member v "accuracyByType" = Ok x ->
     member (stats (fst (loadUserStats host a w))) "accuracyByType"
     = Ok (if truthy x then x
           else Obj [ ("strengthen", Num 0); ("weaken", Num 0);
                      ("assumption", Num 0); ("flaw", Num 0) ])).
Proof.
  split; [| split; [| split; [| split]]].
  5: { intros v w' x R M.
       destruct (loadUserStats_stores host a w v w' _ x R M) as (s & S & ->).
       exact (proj2 (stats_of_stores v w' s w' S) x M). }
  4: { intros v w' key x R K M.
       destruct (loadUserStats_stores host a w v w' key x R M) as (s & S & ->).
       exact (proj1 (stats_of_stores v w' s w' S) key x K M). }
  - intros P. unfold loadUserStats. unfold bind at 1.
    destruct (getUserStats host w) as [[v | e] w1]; [| exact P].
    destruct (stats_of v w1) as [[s | e] w2] eqn:S; [| exact P].
    exact (stats_of_printable v w1 s w2 S).
  - intros e w' R. unfold loadUserStats, getUserStats. run. rewrite R. reflexivity.
  - intros w' R. unfold loadUserStats, getUserStats. run. rewrite R. reflexivity.
Qed.

Lemma loadUserStats_keeps_stats_printable_witness :
  printable (stats (fst (loadUserStats (replying 200 (Ok (Obj [("accuracy", Null)])))
                           initial_App guest))) /\
  stats (fst (loadUserStats offline (setStats Null initial_App) guest)) = zero_stats /\
  member (stats (fst (loadUserStats
                        (replying 200 (Ok (Obj [("accuracy", Num 80); ("currentStreak", Null)])))
                        initial_App guest))) "accuracy" = Ok (Num 80) /\
  member (stats (fst (loadUserStats
                        (replying 200 (Ok (Obj [("accuracy", Num 80); ("currentStreak", Null)])))
                        initial_App guest))) "currentStreak" = Ok (Num 0).
Proof.
  split; [| split; [| split]].
  3: { refine (proj1 (proj2 (proj2 (proj2 (loadUserStats_keeps_stats_printable
                 (replying 200 (Ok (Obj [("accuracy", Num 80); ("currentStreak", Null)])))
                 initial_App guest))))
                 _ _ "accuracy" (Num 80) eq_refl _ eq_refl).
       cbn. tauto. }
  3: { refine (proj1 (proj2 (proj2 (proj2 (loadUserStats_keeps_stats_printable
                 (replying 200 (Ok (Obj [("accuracy", Num 80); ("currentStreak", Null)])))
                 initial_App guest))))
                 _ _ "currentStreak" Null eq_refl _ eq_refl).
       cbn. tauto. }
  - exact (proj1 (loadUserStats_keeps_stats_printable
                    (replying 200 (Ok (Obj [("accuracy", Null)]))) initial_App guest)
             zero_stats_printable).
  - exact (proj1 (proj2 (loadUserStats_keeps_stats_printable
                           offline (setStats Null initial_App) guest)) _ _ eq_refl).
Defined.

Section MoreShell.

Variable host : Host.

Lemma isAuthenticated_eq w : isAuthenticated w = (Ok (truthy_token (token w)), w).
Proof. reflexivity. Qed.

(** The start-up check, by cases on the token and on the profile fetch. *)
Lemma App_checkAuthStatus_eq a w :
  App_checkAuthStatus host a w =
  if truthy_token (token w) then
    match getProfile host w with
    | (Ok profile, w1) =>
        match member profile "user" with
        | Ok user => loadUserStats host (setCurrentScreen home (setCurrentUser user a)) w1
        | Throw _ => (setCurrentScreen auth a, w1)
        end
    | (Throw _, w1) => (setCurrentScreen auth a, w1)
    end
  else (setCurrentScreen auth a, w).
Proof.
  unfold App_checkAuthStatus. unfold bind at 1. rewrite isAuthenticated_eq.
  destruct (truthy_token (token w)); [| reflexivity].
  run. destruct (getProfile host w) as [[profile | e] w1]; [| reflexivity].
  destruct (member profile "user"); reflexivity.
Qed.

(** With the network down and an error that does not mention '401',
    [getProfile] throws and leaves the token where it is. *)
Lemma getProfile_network_down e w :
  network_down host e -> is_error_with e "401" = false ->
  getProfile host w
  = (Throw e, after_fetch (config host "/auth/profile" (token w) GET) w).
Proof.
  intros D I. rewrite getProfile_eq, request_eq. cbv zeta. rewrite D, I. reflexivity.
Qed.

Lemma generateQuestion_network_down e r w :
  network_down host e -> truthy_token (token w) = true ->
  fst (generateQuestion host r w) = Throw e.
Proof.
  intros D T. rewrite generateQuestion_eq, request_eq. cbv zeta. rewrite D.
  cbn [after_fetch token]. rewrite T. reflexivity.
Qed.

End MoreShell.

(** X15. The start-up check ends on the home screen or on the
    authentication screen. With no truthy token cached it goes to the
    authentication screen without any network call. With one, it reaches
    the home screen only when the profile fetch returned, and the user shown
    is then the [user] of that reply; when the profile fetch throws, it
    goes to the authentication screen. *)
Theorem App_checkAuthStatus_lands_on_home_or_auth (host : Host) (a : App) (w : World) :
  let a' := fst (App_checkAuthStatus host a w) in
  (currentScreen a' = home \/ currentScreen a' = auth) /\
  (truthy_token (token w) = false ->
   App_checkAuthStatus host a w = (setCurrentScreen auth a, w)) /\
  (currentScreen a' = home ->
   exists profile w1,
     getProfile host w = (Ok profile, w1) /\ member profile "user" = Ok (currentUser a')) /\
  (truthy_token (token w) = true ->
   forall e w1, getProfile host w = (Throw e, w1) ->
     App_checkAuthStatus host a w = (setCurrentScreen auth a, w1)).
Proof.
  cbv zeta. rewrite App_checkAuthStatus_eq.
  destruct (truthy_token (token w)).
  - destruct (getProfile host w) as [[profile | e] w1].
    + destruct (member profile "user") as [user | e] eqn:M.
      * destruct (loadUserStats_sets_stats host
                    (setCurrentScreen home (setCurrentUser user a)) w1) as (s & L).
        rewrite L. cbn [fst currentScreen currentUser setStats setCurrentScreen setCurrentUser].
        split; [left; reflexivity |]. split; [discriminate |].
        split; [| discriminate].
        intros _. exists profile, w1. split; [reflexivity | exact M].
      * cbn [fst currentScreen setCurrentScreen].
        split; [right; reflexivity |]. split; [discriminate |].
        split; discriminate.
    + cbn [fst currentScreen setCurrentScreen].
      split; [right; reflexivity |]. split; [discriminate |].
      split; [discriminate |].
      intros _ e' w2 E. injection E as _ <-. reflexivity.
  - cbn [fst currentScreen setCurrentScreen].
    split; [right; reflexivity |]. split; [reflexivity |].
    split; discriminate.
Qed.

Lemma App_checkAuthStatus_lands_on_home_or_auth_witness :
  App_checkAuthStatus offline initial_App guest = (setCurrentScreen auth initial_App, guest).
Proof.
  exact (proj1 (proj2 (App_checkAuthStatus_lands_on_home_or_auth offline initial_App guest))
           eq_refl).
Defined.

(** X16. Confirming the logout dialog always ends on the authentication
    screen with no user, all-zero statistics and no cached token, whatever
    the network and the storage do. *)
Theorem handleLogout_onPress_signs_out (host : Host) (a : App) (w : World) :
  let a' := fst (handleLogout_onPress host a w) in
  currentScreen a' = auth /\ currentUser a' = Null /\ stats a' = zero_stats /\
  token (snd (handleLogout_onPress host a w)) = None.
Proof.
  cbv zeta. unfold handleLogout_onPress.
  destruct (logout_clears_cached_token host w) as (L & T).
  destruct (logout host w) as [[[] | e] w1]; cbn [fst snd] in *; [| discriminate L].
  repeat split. exact T.
Qed.

(** X17. A stale session: the app starts with a non-empty token cached
    while the network is down (with an error that does not mention '401').
    The start-up check shows the authentication screen but leaves the token
    cached. If the user then continues as guest and opens a question, the
    question request fails, and because the token is still there no sample
    question is served: the app returns to the home screen with the error
    alert. *)
Theorem stale_token_denies_guest_the_samples
    (host : Host) (e : Thrown) (t : string) (now : Z) (questionType : string)
    (a : App) (w : World) :
  network_down host e -> is_error_with e "401" = false ->
  token w = Some t -> t <> "" ->
  let (a1, w1) := App_checkAuthStatus host a w in
  let (r2, s2) := handleGuestMode host a1 w1 in
  let (a2, w2) := s2 in
  let (a3, w3) := navigateToQuestion host now questionType a2 w2 in
  currentScreen a1 = auth /\ token w1 = Some t /\
  r2 = Ok tt /\ currentScreen a2 = home /\ w2 = w1 /\
  currentScreen a3 = home /\
  alerts a3 = ("Error", "Failed to load question. Please try again.") :: alerts a /\
  currentQuestion a3 = currentQuestion a.
Proof.
  intros D I T N.
  assert (TT : truthy_token (token w) = true).
  { rewrite T. destruct t; [contradiction N; reflexivity | reflexivity]. }
  rewrite App_checkAuthStatus_eq, TT, (getProfile_network_down host e w D I).
  unfold handleGuestMode.
  cbn [handleAuthSuccess member guest_user get_property own_property String.eqb
       Ascii.eqb Bool.eqb is_not_zero].
  unfold navigateToQuestion. cbv zeta.
  pose proof (generateQuestion_network_down host e (mkGenerate questionType None)
                (after_fetch (config host "/auth/profile" (token w) GET) w) D TT) as G.
  destruct (generateQuestion host (mkGenerate questionType None) _) as [[q | e'] w3];
    cbn [fst] in G; [discriminate G |].
  repeat split. exact T.
Qed.

Lemma stale_token_denies_guest_the_samples_witness :
  let (a1, w1) := App_checkAuthStatus offline initial_App (signed_in "abc") in
  let (r2, s2) := handleGuestMode offline a1 w1 in
  let (a2, w2) := s2 in
  let (a3, w3) := navigateToQuestion offline 0 "weaken" a2 w2 in
  currentScreen a1 = auth /\ token w1 = Some "abc" /\
  r2 = Ok tt /\ currentScreen a2 = home /\ w2 = w1 /\
  currentScreen a3 = home /\
  alerts a3 = [("Error", "Failed to load question. Please try again.")] /\
  currentQuestion a3 = Null.
Proof.
  apply (stale_token_denies_guest_the_samples
           offline (Error "Network request failed") "abc" 0 "weaken"
           initial_App (signed_in "abc")).
  - intros log. reflexivity.
  - reflexivity.
  - reflexivity.
  - discriminate.
Defined.

(** ** Regular expressions *)

Lemma nullable_spec r : nullable r = true <-> Matches r [].
Proof.
  induction r as [| | p | r IHr s IHs | r IHr s IHs | r IHr]; cbn [nullable].
  - split; [discriminate | intros H; inversion H].
  - split; [intros _; constructor | reflexivity].
  - split; [discriminate | intros H; inversion H].
  - rewrite andb_true_iff, IHr, IHs. split.
    + intros [H1 H2]. exact (MCat r s [] [] H1 H2).
    + intros H. inversion H as [| | r' s' u v Hu Hv E1 E2 | | | |]; subst.
      apply app_eq_nil in E2. destruct E2 as [-> ->]. split; assumption.
  - rewrite orb_true_iff, IHr, IHs. split.
    + intros [H | H]; [apply MAltL | apply MAltR]; exact H.
    + intros H. inversion H; subst; [left | right]; assumption.
  - split; [intros _; constructor | reflexivity].
Qed.

(** A non-empty word of [r*] starts with a non-empty word of [r]. *)
Lemma star_cons r c w :
  Matches (Star r) (c :: w) ->
  exists u v, w = (u ++ v)%list /\ Matches r (c :: u) /\ Matches (Star r) v.
Proof.
  intros H. remember (Star r) as q eqn:Q. remember (c :: w) as x eqn:X.
  revert c w X.
  induction H as [| | | | | r' | r' u v Hu _ Hv IHv]; try discriminate Q.
  - intros c w X. discriminate X.
  - injection Q as ->. intros c w X. destruct u as [| a u].
    + cbn in X. exact (IHv eq_refl c w X).
    + cbn in X. injection X as -> <-. exists u, v. repeat split; assumption.
Qed.

Lemma derive_spec c r : forall w, Matches (derive c r) w <-> Matches r (c :: w).
Proof.
  induction r as [| | p | r IHr s IHs | r IHr s IHs | r IHr]; intros w; cbn [derive].
  - split; intros H; inversion H.
  - split; intros H; inversion H.
  - destruct (p c) eqn:P; split; intros H.
    + inversion H; subst. constructor. exact P.
    + inversion H; subst. constructor.
    + inversion H.
    + inversion H; subst. congruence.
  - assert (L : Matches (Cat (derive c r) s) w -> Matches (Cat r s) (c :: w)).
    { intros H. inversion H as [| | r' s' u v Hu Hv E1 E2 | | | |]; subst.
      apply IHr in Hu. exact (MCat r s (c :: u) v Hu Hv). }
    assert (R : Matches (Cat r s) (c :: w) ->
                Matches (Cat (derive c r) s) w \/ (Matches r [] /\ Matches s (c :: w))).
    { intros H. inversion H as [| | r' s' u v Hu Hv E1 E2 | | | |]; subst.
      destruct u as [| a u].
      - right. cbn in E2. subst v. split; assumption.
      - left. cbn in E2. injection E2 as -> <-. apply IHr in Hu.
        constructor; assumption. }
    destruct (nullable r) eqn:N.
    + split.
      * intros H. inversion H; subst; [apply L; assumption |].
        apply nullable_spec in N. apply (MCat r s [] (c :: w) N). apply IHs. assumption.
      * intros H. destruct (R H) as [H1 | [_ H2]];
          [apply MAltL; exact H1 | apply MAltR; apply IHs; exact H2].
    + split; [exact L |].
      intros H. destruct (R H) as [H1 | [H1 _]]; [exact H1 |].
      apply nullable_spec in H1. congruence.
  - split; intros H; inversion H; subst;
      [apply MAltL | apply MAltR | apply MAltL | apply MAltR]; apply IHr || apply IHs;
      assumption.
  - split.
    + intros H. inversion H as [| | r' s' u v Hu Hv E1 E2 | | | |]; subst.
      apply IHr in Hu. exact (MStarApp r (c :: u) v Hu Hv).
    + intros H. destruct (star_cons r c w H) as (u & v & -> & Hu & Hv).
      constructor; [apply IHr; exact Hu | exact Hv].
Qed.

(** [test] decides the language of the expression. *)
Lemma test_spec s : forall r, test r s = true <-> Matches r (list_ascii_of_string s).
Proof.
  induction s as [| c s IH]; intros r; cbn [test list_ascii_of_string].
  - apply nullable_spec.
  - rewrite IH. apply derive_spec.
Qed.

Lemma list_ascii_of_append a b :
  list_ascii_of_string (a ++ b) = (list_ascii_of_string a ++ list_ascii_of_string b)%list.
Proof. induction a as [| c a IH]; cbn; [reflexivity | rewrite IH; reflexivity]. Qed.

Lemma star_class p w : Matches (Star (Class p)) w <-> forallb p w = true.
Proof.
  split.
  - intros H. remember (Star (Class p)) as q eqn:Q.
    induction H as [| | | | | r | r u v Hu _ Hv IHv]; try discriminate Q.
    + reflexivity.
    + injection Q as ->. inversion Hu; subst. cbn. rewrite IHv by reflexivity.
      rewrite H0. reflexivity.
  - induction w as [| c w IH]; cbn; intros H; [constructor |].
    apply andb_true_iff in H. destruct H as [P F].
    exact (MStarApp (Class p) [c] w (MClass p c P) (IH F)).
Qed.

Lemma plus_class p w : Matches (Plus (Class p)) w <-> w <> [] /\ forallb p w = true.
Proof.
  unfold Plus. split.
  - intros H. inversion H as [| | r s u v Hu Hv E1 E2 | | | |]; subst.
    inversion Hu; subst. apply star_class in Hv. cbn. rewrite H1, Hv.
    split; [discriminate | reflexivity].
  - intros [N F]. destruct w as [| c w]; [contradiction N; reflexivity |].
    cbn in F. apply andb_true_iff in F. destruct F as [P F].
    exact (MCat (Class p) (Star (Class p)) [c] w (MClass p c P) (proj2 (star_class p w) F)).
Qed.

Lemma chr_spec c w : Matches (Chr c) w <-> w = [c].
Proof.
  unfold Chr. split.
  - intros H. inversion H; subst. apply Ascii.eqb_eq in H1. subst. reflexivity.
  - intros ->. constructor. apply Ascii.eqb_refl.
Qed.

Lemma string_of_nonempty (l : list ascii) : l <> [] -> string_of_list_ascii l <> "".
Proof. destruct l; [intros H; contradiction H; reflexivity | discriminate]. Qed.

(** What [emailRegex] accepts: a local part, '@', a domain part, '.', and
    a last part, each an [address_part]. *)
Lemma emailRegex_spec e :
  test emailRegex e = true <->
  exists l d t,
    e = l ++ "@" ++ d ++ "." ++ t /\ address_part l /\ address_part d /\ address_part t.
Proof.
  rewrite test_spec. unfold emailRegex, address_part. split.
  - intros H.
    inversion H as [| | r1 s1 l v1 Hl H1 E1 E2 | | | |]; subst.
    inversion H1 as [| | r2 s2 x v2 Hx H2 E3 E4 | | | |]; subst.
    inversion H2 as [| | r3 s3 d v3 Hd H3 E5 E6 | | | |]; subst.
    inversion H3 as [| | r4 s4 y t Hy Ht E7 E8 | | | |]; subst.
    apply chr_spec in Hx, Hy. subst x y.
    apply plus_class in Hl, Hd, Ht.
    destruct Hl as [Nl Fl], Hd as [Nd Fd], Ht as [Nt Ft].
    exists (string_of_list_ascii l), (string_of_list_ascii d), (string_of_list_ascii t).
    rewrite !list_ascii_of_string_of_list_ascii.
    split.
    + rewrite <- (string_of_list_ascii_of_string e), <- E2.
      rewrite <- (list_ascii_of_string_of_list_ascii l) at 1.
      rewrite <- (list_ascii_of_string_of_list_ascii d) at 1.
      rewrite <- (list_ascii_of_string_of_list_ascii t) at 1.
      change ["@"%char] with (list_ascii_of_string "@").
      change ["."%char] with (list_ascii_of_string ".").
      rewrite <- !list_ascii_of_append. apply string_of_list_ascii_of_string.
    + repeat split; try assumption; apply string_of_nonempty; assumption.
  - intros (l & d & t & -> & [Nl Fl] & [Nd Fd] & [Nt Ft]).
    rewrite !list_ascii_of_append.
    assert (P : forall s, s <> "" -> forallb address_char (list_ascii_of_string s) = true ->
                Matches (Plus (Class address_char)) (list_ascii_of_string s)).
    { intros s N F. apply plus_class. split; [| exact F].
      destruct s; [contradiction N; reflexivity | discriminate]. }
    apply MCat; [apply P; assumption |].
    apply MCat; [apply chr_spec; reflexivity |].
    apply MCat; [apply P; assumption |].
    apply MCat; [apply chr_spec; reflexivity |].
    apply P; assumption.
Qed.

(** ** The authentication form *)

Lemma address_chars_clean l :
  forallb address_char l = true ->
  existsb is_space l = false /\ count_occ ascii_dec l "@"%char = 0.
Proof.
  induction l as [| c l IH]; cbn [forallb existsb count_occ]; intros H; [split; reflexivity |].
  apply andb_true_iff in H. destruct H as [P F]. destruct (IH F) as [S C].
  unfold address_char in P. apply negb_true_iff, orb_false_iff in P.
  destruct P as [P1 P2]. rewrite P1, S. split; [reflexivity |].
  destruct (ascii_dec c "@") as [-> | _]; [discriminate P2 | exact C].
Qed.

Lemma existsb_space_app u v :
  existsb is_space (u ++ v) = existsb is_space u || existsb is_space v.
Proof. apply existsb_app. Qed.

Lemma trimStart_clean l : existsb is_space l = false -> trimStart l = l.
Proof.
  destruct l as [| c l]; cbn; [reflexivity |].
  intros H. apply orb_false_iff in H. destruct H as [-> _]. reflexivity.
Qed.

Lemma existsb_rev (p : ascii -> bool) l : existsb p (rev l) = existsb p l.
Proof.
  induction l as [| c l IH]; cbn; [reflexivity |].
  rewrite existsb_app, IH. cbn. rewrite orb_false_r. apply orb_comm.
Qed.

Lemma trim_clean s : existsb is_space (list_ascii_of_string s) = false -> trim s = s.
Proof.
  intros H. unfold trim. rewrite (trimStart_clean _ H).
  rewrite trimStart_clean by (rewrite existsb_rev; exact H).
  rewrite rev_involutive. apply string_of_list_ascii_of_string.
Qed.

Lemma length_list_ascii s : List.length (list_ascii_of_string s) = String.length s.
Proof. induction s; cbn; [reflexivity | rewrite IHs; reflexivity]. Qed.

Lemma nonempty_length s : s <> "" -> 1 <= String.length s.
Proof. destruct s; [intros H; contradiction H; reflexivity | cbn; lia]. Qed.

(** What an accepted address looks like, in list form. *)
Lemma accepted_email_chars e :
  test emailRegex e = true ->
  existsb is_space (list_ascii_of_string e) = false /\
  count_occ ascii_dec (list_ascii_of_string e) "@"%char = 1 /\
  5 <= String.length e.
Proof.
  intros H. apply emailRegex_spec in H.
  destruct H as (l & d & t & -> & [Nl Fl] & [Nd Fd] & [Nt Ft]).
  destruct (address_chars_clean _ Fl) as [Sl Cl].
  destruct (address_chars_clean _ Fd) as [Sd Cd].
  destruct (address_chars_clean _ Ft) as [St Ct].
  rewrite <- length_list_ascii, !list_ascii_of_append.
  rewrite !existsb_app, !count_occ_app, !length_app, Sl, Sd, St, Cl, Cd, Ct.
  rewrite !length_list_ascii.
  pose proof (nonempty_length l Nl). pose proof (nonempty_length d Nd).
  pose proof (nonempty_length t Nt).
  cbn. repeat split; lia.
Qed.

Lemma accepted_email_not_blank e : test emailRegex e = true -> blank e = false.
Proof.
  intros H. destruct (accepted_email_chars e H) as (S & _ & L).
  unfold blank. rewrite (trim_clean e S). apply String.eqb_neq.
  intros ->. cbn in L. lia.
Qed.

(** X18. The address test accepts exactly the strings made of a local
    part, '@', a domain part, '.', and a last part, where each part is
    non-empty and holds neither white space nor '@'. *)
Theorem emailRegex_accepts_exactly (e : string) :
  test emailRegex e = true <->
  exists l d t,
    e = l ++ "@" ++ d ++ "." ++ t /\ address_part l /\ address_part d /\ address_part t.
Proof. exact (emailRegex_spec e). Qed.

Example emailRegex_samples :
  test emailRegex "ada@example.org" = true /\
  test emailRegex "ada@localhost" = false /\
  test emailRegex "ada@@example.org" = false /\
  test emailRegex "ada@example." = false /\
  test emailRegex " ada@example.org" = false /\
  test emailRegex "a.b@c.d.e" = true.
Proof. repeat split. Qed.

(** X19. An address the test accepts holds exactly one '@' and no white
    space, is unchanged by [trim], and is at least five characters long. *)
Theorem accepted_email_is_clean (e : string) :
  test emailRegex e = true ->
  count_occ ascii_dec (list_ascii_of_string e) "@"%char = 1 /\
  existsb is_space (list_ascii_of_string e) = false /\
  trim e = e /\
  5 <= String.length e.
Proof.
  intros H. destruct (accepted_email_chars e H) as (S & C & L).
  repeat split; try assumption. apply trim_clean. exact S.
Qed.

Lemma accepted_email_is_clean_witness :
  count_occ ascii_dec (list_ascii_of_string "ada@example.org") "@"%char = 1 /\
  existsb is_space (list_ascii_of_string "ada@example.org") = false /\
  trim "ada@example.org" = "ada@example.org" /\
  5 <= String.length "ada@example.org".
Proof. exact (accepted_email_is_clean "ada@example.org" eq_refl). Defined.

Example validateForm_login :
  validateForm (mkAuthScreen true false (mkForm "" "ada@example.org" "pw" "")) initial_App
  = (true, initial_App).
Proof. reflexivity. Qed.

Example validateForm_register_short_password :
  validateForm (mkAuthScreen false false (mkForm "ada" "ada@example.org" "pw" "pw")) initial_App
  = (false, Alert_alert "Error" "Password must be at least 6 characters long" initial_App).
Proof. reflexivity. Qed.

(** An accepted form raises no alert. *)
Lemma validateForm_accepts_silently (s : AuthScreen) (a : App) :
  fst (validateForm s a) = true -> snd (validateForm s a) = a.
Proof.
  unfold validateForm.
  destruct (blank (email (formData s))); [discriminate |].
  destruct (blank (password (formData s))); [discriminate |].
  destruct (negb (isLogin s) && blank (username (formData s))); [discriminate |].
  destruct (negb (isLogin s) && (String.length (password (formData s)) <? 6)%nat);
    [discriminate |].
  destruct (negb (isLogin s) && negb (password (formData s) =? confirmPassword (formData s)));
    [discriminate |].
  destruct (negb (test emailRegex (email (formData s)))); [discriminate | reflexivity].
Qed.

(** X20. [validateForm] accepts a form exactly when the address passes
    the address test, the password is not blank and, when registering, the
    user name is not blank, the password has at least six characters and
    equals its confirmation; the separate check that the address is not
    blank never changes the verdict. An accepted form raises no alert, a
    refused one raises exactly one, and a form accepted for registration is
    accepted for login too. *)
Theorem validateForm_verdict (s : AuthScreen) (a : App) :
  (fst (validateForm s a) = true <->
   test emailRegex (email (formData s)) = true /\
   blank (password (formData s)) = false /\
   (isLogin s = false ->
    blank (username (formData s)) = false /\
    6 <= String.length (password (formData s)) /\
    password (formData s) = confirmPassword (formData s))) /\
  (fst (validateForm s a) = true -> snd (validateForm s a) = a) /\
  (fst (validateForm s a) = false ->
   exists message, snd (validateForm s a) = Alert_alert "Error" message a) /\
  (fst (validateForm s a) = true ->
   fst (validateForm (mkAuthScreen true (auth_loading s) (formData s)) a) = true).
Proof.
  destruct s as [mode busy [u e p c]].
  unfold validateForm.
  cbn [isLogin formData email password username confirmPassword auth_loading].
  pose proof (accepted_email_not_blank e) as NB.
  destruct (test emailRegex e) eqn:T;
    [rewrite (NB eq_refl) | clear NB; destruct (blank e)];
    destruct (blank p) eqn:Bp, mode, (blank u) eqn:Bu,
             (Nat.ltb_spec (String.length p) 6) as [L | L],
             (String.eqb_spec p c) as [E | E];
    cbn [negb andb fst snd];
    (split; [split; [intros H; try discriminate H; repeat split; intros;
                     try assumption; try discriminate
                    | intros (H1 & H2 & H3); try discriminate H1; try discriminate H2;
                      try reflexivity;
                      destruct (H3 eq_refl) as (K1 & K2 & K3);
                      first [discriminate K1 | lia | contradiction] ]
            | split; [intros H; try discriminate H; reflexivity
                     | split; [intros H; try discriminate H; eexists; reflexivity
                              | intros H; try discriminate H; reflexivity ] ] ]).
Qed.

Lemma validateForm_verdict_witness :
  snd (validateForm (mkAuthScreen false false
                       (mkForm "ada" "ada@example.org" "secret" "secret")) initial_App)
  = initial_App /\
  fst (validateForm (mkAuthScreen true false
                       (mkForm "ada" "ada@example.org" "secret" "secret")) initial_App)
  = true.
Proof.
  split.
  - exact (proj1 (proj2 (validateForm_verdict
             (mkAuthScreen false false (mkForm "ada" "ada@example.org" "secret" "secret"))
             initial_App)) eq_refl).
  - exact (proj2 (proj2 (proj2 (validateForm_verdict
             (mkAuthScreen false false (mkForm "ada" "ada@example.org" "secret" "secret"))
             initial_App))) eq_refl).
Defined.

Lemma trim_padded c e :
  is_space c = true -> existsb is_space (list_ascii_of_string e) = false ->
  trim (String c e) = e /\ trim (e ++ String c "") = e.
Proof.
  intros S E. unfold trim. split.
  - cbn [list_ascii_of_string trimStart]. rewrite S, (trimStart_clean _ E).
    rewrite trimStart_clean by (rewrite existsb_rev; exact E).
    rewrite rev_involutive. apply string_of_list_ascii_of_string.
  - rewrite list_ascii_of_append. cbn [list_ascii_of_string].
    destruct (list_ascii_of_string e) as [| x l] eqn:L.
    + cbn. rewrite S. cbn. rewrite <- (string_of_list_ascii_of_string e), L. reflexivity.
    + assert (X : is_space x = false).
      { cbn in E. apply orb_false_iff in E. apply E. }
      cbn [app trimStart]. rewrite X.
      change (x :: (l ++ [c])%list) with ((x :: l) ++ [c])%list.
      rewrite rev_app_distr. cbn [rev app trimStart]. rewrite S.
      rewrite trimStart_clean
        by (change (rev l ++ [x])%list with (rev (x :: l)); rewrite existsb_rev; exact E).
      change (rev l ++ [x])%list with (rev (x :: l)). rewrite rev_involutive, <- L.
      apply string_of_list_ascii_of_string.
Qed.

(** X21. The address is validated as typed, not trimmed: an address the
    test would accept, typed with a white-space character before or after
    it, passes the blank check and is then refused with 'Please enter a
    valid email address'. *)
Theorem validateForm_refuses_padded_email
    (s : AuthScreen) (a : App) (c : ascii) (e : string) :
  is_space c = true -> test emailRegex e = true ->
  isLogin s = true -> blank (password (formData s)) = false ->
  email (formData s) = String c e \/ email (formData s) = e ++ String c "" ->
  validateForm s a = (false, Alert_alert "Error" "Please enter a valid email address" a).
Proof.
  intros S T M P E.
  destruct (accepted_email_chars e T) as (Cl & _ & L).
  destruct (trim_padded c e S Cl) as [T1 T2].
  assert (B : blank (email (formData s)) = false).
  { unfold blank. destruct E as [-> | ->]; [rewrite T1 | rewrite T2];
      apply String.eqb_neq; intros ->; cbn in L; lia. }
  assert (R : test emailRegex (email (formData s)) = false).
  { destruct (test emailRegex (email (formData s))) eqn:X; [| reflexivity].
    destruct (accepted_email_chars _ X) as (Y & _).
    destruct E as [E | E]; rewrite E in Y.
    - cbn in Y. rewrite S in Y. discriminate Y.
    - rewrite list_ascii_of_append, existsb_app in Y. cbn in Y. rewrite S in Y.
      rewrite orb_true_r in Y. discriminate Y. }
  unfold validateForm. rewrite B, P, M, R. reflexivity.
Qed.

Lemma validateForm_refuses_padded_email_witness :
  validateForm (mkAuthScreen true false (mkForm "" "ada@example.org " "secret" "")) initial_App
  = (false, Alert_alert "Error" "Please enter a valid email address" initial_App).
Proof.
  apply (validateForm_refuses_padded_email _ initial_App " "%char "ada@example.org");
    try reflexivity.
  right. reflexivity.
Defined.

(** The three tests of the form's [catch] block, on every message the
    gateway makes for a three-digit status. *)
Lemma errorMessage_of_http_status (status : nat) :
  status < 1000 ->
  errorMessage (Error (if (status =? 401)%nat then "Authentication failed"
                       else "HTTP error! status: " ++ decimal status))
  = Ok (message_for_status status).
Proof.
  intros B.
  assert (A : forallb
                (fun n =>
                   match errorMessage (Error (if (n =? 401)%nat then "Authentication failed"
                                              else "HTTP error! status: " ++ decimal n)) with
                   | Ok m => m =? message_for_status n
                   | Throw _ => false
                   end)
                (seq 0 1000) = true) by (vm_compute; reflexivity).
  rewrite forallb_forall in A.
  assert (I : In status (seq 0 1000)) by (apply in_seq; lia).
  specialize (A status I).
  destruct (errorMessage _) as [m | t]; [| discriminate A].
  apply String.eqb_eq in A. rewrite A. reflexivity.
Qed.

Example login_wrong_password :
  option_map (fun r => alerts (fst (snd (snd r))))
    (AuthScreen_handleSubmit (replying 401 (Ok Null))
       (mkAuthScreen true false (mkForm "" "ada@example.org" "wrong" "")) initial_App guest)
  = Some [("Error", "Something went wrong. Please try again.")].
Proof. reflexivity. Qed.

Example register_taken :
  option_map (fun r => alerts (fst (snd (snd r))))
    (AuthScreen_handleSubmit (replying 409 (Ok Null))
       (mkAuthScreen false false (mkForm "ada" "ada@example.org" "secret" "secret"))
       initial_App guest)
  = Some [("Error", "User with this email or username already exists")].
Proof. reflexivity. Qed.

(** X22. The form's submit handler sends nothing for a form
    [validateForm] refuses. For an accepted form whose request is answered
    with a failing HTTP status below 1000, it ends with exactly one error
    alert and the form no longer loading; the alert reads 'User with this
    email or username already exists' for 409, 'Please check your input and
    try again' for 400, and 'Something went wrong. Please try again.' for
    every other status, 401 included: 'Invalid email or password' is never
    shown for an HTTP status. *)
Theorem AuthScreen_handleSubmit_error_messages
    (host : Host) (s : AuthScreen) (a : App) (w : World) :
  let f := formData s in
  let endpoint := if isLogin s then "/auth/login" else "/auth/register" in
  let payload :=
    if isLogin s
    then Obj [ ("email", Str (email f)); ("password", Str (password f)) ]
    else Obj [ ("username", Str (username f)); ("email", Str (email f));
               ("password", Str (password f)) ] in
  (fst (validateForm s a) = false ->
   AuthScreen_handleSubmit host s a w = Some (Ok tt, (s, (snd (validateForm s a), w)))) /\
  (forall status json,
     fst (validateForm s a) = true ->
     fetch_outcome host (config host endpoint (token w) (POST (Some payload)) :: sent w)
     = Response status json ->
     ok status = false -> status < 1000 ->
     AuthScreen_handleSubmit host s a w
     = Some (Ok tt,
             (setAuthLoading false (setAuthLoading true s),
              (Alert_alert "Error" (message_for_status status) a,
               snd (request host endpoint (POST (Some payload)) w)))) /\
     message_for_status status <> "Invalid email or password").
Proof.
  cbv zeta. split.
  - intros V. unfold AuthScreen_handleSubmit.
    destruct (validateForm s a) as [valid a0]. cbn [fst snd] in *. rewrite V. reflexivity.
  - intros status json V H K B.
    pose proof (validateForm_accepts_silently s a V) as A.
    unfold AuthScreen_handleSubmit.
    destruct (validateForm s a) as [valid a0]. cbn [fst snd] in *. subst valid a0.
    cbn [negb].
    pose proof (errorMessage_of_http_status status B) as M.
    assert (R : forall ep body,
              fetch_outcome host (config host ep (token w) (POST (Some body)) :: sent w)
              = Response status json ->
              request host ep (POST (Some body)) w
              = (Throw (Error (if (status =? 401)%nat then "Authentication failed"
                               else "HTTP error! status: " ++ decimal status)),
                 snd (request host ep (POST (Some body)) w))).
    { intros ep body E. rewrite request_eq. cbv zeta. rewrite E, K.
      destruct (status =? 401)%nat; reflexivity. }
    split.
    + destruct (isLogin s); unfold login, register; rewrite (R _ _ H);
        cbv beta iota; rewrite M; reflexivity.
    + unfold message_for_status.
      destruct (status =? 409)%nat; [discriminate |].
      destruct (status =? 400)%nat; discriminate.
Qed.

Lemma AuthScreen_handleSubmit_error_messages_witness :
  AuthScreen_handleSubmit (replying 401 (Ok Null))
    (mkAuthScreen true false (mkForm "" "ada@example.org" "wrong" "")) initial_App guest
  = Some (Ok tt,
          (mkAuthScreen true false (mkForm "" "ada@example.org" "wrong" ""),
           (Alert_alert "Error" "Something went wrong. Please try again." initial_App,
            snd (request (replying 401 (Ok Null)) "/auth/login"
                   (POST (Some (Obj [ ("email", Str "ada@example.org");
                                      ("password", Str "wrong") ]))) guest)))).
Proof.
  refine (proj1 (proj2 (AuthScreen_handleSubmit_error_messages
                          (replying 401 (Ok Null))
                          (mkAuthScreen true false (mkForm "" "ada@example.org" "wrong" ""))
                          initial_App guest)
                   401 (Ok Null) eq_refl eq_refl eq_refl _)).
  lia.
Defined.

(** ** The review screen *)

Section MoreReview.

Variable host : Host.

Lemma review_handleAnswerSelect_keeps answer st :
  ReviewScreen.reviewQuestions (ReviewScreen.handleAnswerSelect answer st)
  = ReviewScreen.reviewQuestions st /\
  ReviewScreen.currentQuestionIndex (ReviewScreen.handleAnswerSelect answer st)
  = ReviewScreen.currentQuestionIndex st /\
  ReviewScreen.loading (ReviewScreen.handleAnswerSelect answer st) = ReviewScreen.loading st.
Proof.
  unfold ReviewScreen.handleAnswerSelect.
  destruct (ReviewScreen.showExplanation st); repeat split.
Qed.

Lemma review_handleAnswerSelect_rest answer st :
  ReviewScreen.reviewComplete (ReviewScreen.handleAnswerSelect answer st)
  = ReviewScreen.reviewComplete st /\
  ReviewScreen.scheduled (ReviewScreen.handleAnswerSelect answer st)
  = ReviewScreen.scheduled st.
Proof.
  unfold ReviewScreen.handleAnswerSelect.
  destruct (ReviewScreen.showExplanation st); repeat split.
Qed.

Lemma review_handleSubmit_keeps st w :
  ReviewScreen.reviewQuestions (fst (ReviewScreen.handleSubmit host st w))
  = ReviewScreen.reviewQuestions st /\
  ReviewScreen.currentQuestionIndex (fst (ReviewScreen.handleSubmit host st w))
  = ReviewScreen.currentQuestionIndex st /\
  ReviewScreen.loading (fst (ReviewScreen.handleSubmit host st w)) = ReviewScreen.loading st.
Proof.
  unfold ReviewScreen.handleSubmit.
  destruct (ReviewScreen.selectedAnswer st) as [[| c s] |]; try (repeat split; fail).
  destruct (ReviewScreen.currentQuestion st) as [q |]; try (repeat split; fail).
  destruct (negb (truthy q)); try (repeat split; fail).
  destruct ((id <- lift (member q "id");; submitAnswer host (mkSubmit id (String c s) None)) w)
    as [[result | e] w']; repeat split.
Qed.

(** A submission leaves the completion flag alone, and the alert it
    schedules, if any, keeps the index and the questions of the
    submission. *)
Lemma review_handleSubmit_rest st w :
  ReviewScreen.reviewComplete (fst (ReviewScreen.handleSubmit host st w))
  = ReviewScreen.reviewComplete st /\
  (ReviewScreen.scheduled (fst (ReviewScreen.handleSubmit host st w))
   = ReviewScreen.scheduled st \/
   exists result,
     ReviewScreen.scheduled (fst (ReviewScreen.handleSubmit host st w))
     = ReviewScreen.mkPending result (ReviewScreen.currentQuestionIndex st)
                              (ReviewScreen.reviewQuestions st)
       :: ReviewScreen.scheduled st).
Proof.
  unfold ReviewScreen.handleSubmit.
  destruct (ReviewScreen.selectedAnswer st) as [[| c s] |]; try (split; [| left]; reflexivity).
  destruct (ReviewScreen.currentQuestion st) as [q |]; try (split; [| left]; reflexivity).
  destruct (negb (truthy q)); try (split; [| left]; reflexivity).
  destruct ((id <- lift (member q "id");; submitAnswer host (mkSubmit id (String c s) None)) w)
    as [[result | e] w'].
  - split; [reflexivity |]. right. exists result. reflexivity.
  - split; [| left]; reflexivity.
Qed.

Lemma review_advance_keeps index questions st :
  ReviewScreen.reviewQuestions (ReviewScreen.advance index questions st)
  = ReviewScreen.reviewQuestions st /\
  ReviewScreen.scheduled (ReviewScreen.advance index questions st)
  = ReviewScreen.scheduled st /\
  ReviewScreen.loading (ReviewScreen.advance index questions st) = ReviewScreen.loading st.
Proof.
  unfold ReviewScreen.advance. destruct (_ <? _)%Z; repeat split.
Qed.

(** An advance made with the questions of the state stays inside them,
    whatever index the button's closure has seen. *)
Lemma review_advance_in_range index st :
  index_in_range st ->
  index_in_range (ReviewScreen.advance index (ReviewScreen.reviewQuestions st) st).
Proof.
  unfold index_in_range, ReviewScreen.advance. intros H.
  destruct (Z.ltb_spec (Z.of_nat index)
              (Z.of_nat (List.length (ReviewScreen.reviewQuestions st)) - 1)) as [L | L];
    cbn; [right; lia | exact H].
Qed.

Lemma review_handleNext_in_range st :
  index_in_range st -> index_in_range (ReviewScreen.handleNext st).
Proof. apply review_advance_in_range. Qed.

Lemma review_handleNext_loading st :
  ReviewScreen.loading (ReviewScreen.handleNext st) = ReviewScreen.loading st.
Proof.
  unfold ReviewScreen.handleNext, ReviewScreen.advance.
  destruct (_ <? _)%Z; reflexivity.
Qed.

Lemma drop_nth_Forall {A : Type} (P : A -> Prop) (k : nat) (l : list A) :
  Forall P l -> Forall P (ReviewScreen.drop_nth k l).
Proof.
  intros F. revert k. induction F as [| x l Px F IH]; intros [| k]; cbn.
  - constructor.
  - constructor.
  - exact F.
  - constructor; [exact Px | apply IH].
Qed.

Lemma review_handleAlertNext_in_step k st :
  index_in_range st /\ alerts_in_step st ->
  index_in_range (ReviewScreen.handleAlertNext k st) /\
  alerts_in_step (ReviewScreen.handleAlertNext k st).
Proof.
  intros [H F]. unfold ReviewScreen.handleAlertNext.
  destruct (nth_error (ReviewScreen.scheduled st) k) as [p |] eqn:N; [| split; assumption].
  assert (Q : ReviewScreen.seen_questions p = ReviewScreen.reviewQuestions st).
  { unfold alerts_in_step in F. rewrite Forall_forall in F.
    apply F. eapply nth_error_In. exact N. }
  rewrite Q. split.
  - apply (review_advance_in_range (ReviewScreen.seen_index p) (ReviewScreen.dismiss k st)).
    exact H.
  - unfold alerts_in_step.
    destruct (review_advance_keeps (ReviewScreen.seen_index p)
                (ReviewScreen.reviewQuestions st) (ReviewScreen.dismiss k st)) as (Q1 & S1 & _).
    rewrite Q1, S1. cbn [ReviewScreen.dismiss ReviewScreen.reviewQuestions
                           ReviewScreen.scheduled].
    apply drop_nth_Forall. exact F.
Qed.

Lemma review_handle_in_step e st w :
  index_in_range st /\ alerts_in_step st ->
  index_in_range (fst (ReviewScreen.handle host e st w)) /\
  alerts_in_step (fst (ReviewScreen.handle host e st w)).
Proof.
  intros [H F]. destruct e as [answer | | | k]; cbn [ReviewScreen.handle fst].
  - destruct (review_handleAnswerSelect_keeps answer st) as (Q & I & _).
    destruct (review_handleAnswerSelect_rest answer st) as (_ & S).
    unfold index_in_range, alerts_in_step. rewrite Q, I, S. split; assumption.
  - destruct (review_handleSubmit_keeps st w) as (Q & I & _).
    destruct (review_handleSubmit_rest st w) as (_ & [S | [result S]]);
      unfold index_in_range, alerts_in_step; rewrite Q, I, S;
      (split; [exact H |]); [exact F |].
    constructor; [reflexivity | exact F].
  - split; [apply review_handleNext_in_range; exact H |].
    unfold alerts_in_step, ReviewScreen.handleNext.
    destruct (review_advance_keeps (ReviewScreen.currentQuestionIndex st)
                (ReviewScreen.reviewQuestions st) st) as (Q1 & S1 & _).
    rewrite Q1, S1. exact F.
  - apply review_handleAlertNext_in_step. split; assumption.
Qed.

Lemma review_handle_in_range e st w :
  index_in_range st /\ alerts_in_step st ->
  index_in_range (fst (ReviewScreen.handle host e st w)).
Proof. intros H. apply review_handle_in_step. exact H. Qed.

Lemma review_session_in_range events :
  forall st w, index_in_range st /\ alerts_in_step st ->
               index_in_range (fst (ReviewScreen.session host events st w)).
Proof.
  induction events as [| e rest IH]; intros st w H; cbn [ReviewScreen.session].
  - exact (proj1 H).
  - pose proof (review_handle_in_step e st w H) as H1.
    destruct (ReviewScreen.handle host e st w) as [st1 w1]. apply IH. exact H1.
Qed.

Lemma review_render_in_range st :
  index_in_range st -> ReviewScreen.render st <> ReviewScreen.Showing None.
Proof.
  unfold index_in_range, ReviewScreen.render, ReviewScreen.currentQuestion. intros H.
  destruct (ReviewScreen.loading st); [discriminate |].
  destruct (ReviewScreen.reviewComplete st); [discriminate |]. cbn [orb].
  destruct H as [E | L].
  - rewrite E. discriminate.
  - destruct (Nat.eqb_spec (List.length (ReviewScreen.reviewQuestions st)) 0); [discriminate |].
    destruct (nth_error _ _) eqn:N; [discriminate |].
    apply nth_error_None in N. lia.
Qed.

Lemma review_load_scheduled st w st1 w1 :
  ReviewScreen.loadReviewQuestions host st w = Some (st1, w1) ->
  ReviewScreen.scheduled st1 = ReviewScreen.scheduled st.
Proof.
  unfold ReviewScreen.loadReviewQuestions. cbv zeta.
  match goal with
  | |- context [match ?m w with _ => _ end] =>
      destruct (m w) as [[[questions empty] | e] w']
  end.
  - destruct empty.
    + destruct questions; intros E; injection E as <- _; reflexivity.
    + destruct questions; try discriminate.
      intros E. injection E as <- _. reflexivity.
  - intros E. injection E as <- _. reflexivity.
Qed.

Lemma review_load_in_range st w st1 w1 :
  ReviewScreen.currentQuestionIndex st = 0 ->
  ReviewScreen.loadReviewQuestions host st w = Some (st1, w1) ->
  index_in_range st1.
Proof.
  intros Z. unfold ReviewScreen.loadReviewQuestions. cbv zeta.
  match goal with
  | |- context [match ?m w with _ => _ end] =>
      destruct (m w) as [[[questions empty] | e] w']
  end.
  - destruct empty.
    + destruct questions; intros E; injection E as <- _; unfold index_in_range; cbn;
        rewrite Z;
        (destruct (ReviewScreen.reviewQuestions st); [left; reflexivity | right; cbn; lia]).
    + destruct questions; try discriminate.
      intros E. injection E as <- _. unfold index_in_range. cbn. rewrite Z.
      destruct items; [left; reflexivity | right; cbn; lia].
  - intros E. injection E as <- _. unfold index_in_range. cbn. rewrite Z.
    destruct (ReviewScreen.reviewQuestions st); [left; reflexivity | right; cbn; lia].
Qed.

End MoreReview.

Example review_of_nothing :
  ReviewScreen.loadReviewQuestions offline ReviewScreen.initial (signed_in "abc")
  = Some (ReviewScreen.mkState [] 0 None false false true false [] [],
          snd (request offline "/questions/missed" GET (signed_in "abc"))).
Proof. reflexivity. Qed.

(** X23. When the gateway fails on the missed-questions request, the
    review screen raises no alert and goes straight to its completion view:
    loading is over, the review is marked complete and the list of
    questions is left as it was. *)
Theorem loadReviewQuestions_completes_on_failure
    (host : Host) (st : ReviewScreen.State) (w w' : World) (e : Thrown) :
  request host "/questions/missed" GET w = (Throw e, w') ->
  ReviewScreen.loadReviewQuestions host st w
  = Some (ReviewScreen.setLoading false
            (ReviewScreen.setReviewComplete true (ReviewScreen.setLoading true st)), w') /\
  forall st1 w1,
    ReviewScreen.loadReviewQuestions host st w = Some (st1, w1) ->
    ReviewScreen.render st1 = ReviewScreen.Completed /\
    ReviewScreen.alerts st1 = ReviewScreen.alerts st.
Proof.
  intros R.
  assert (E : ReviewScreen.loadReviewQuestions host st w
              = Some (ReviewScreen.setLoading false
                        (ReviewScreen.setReviewComplete true
                           (ReviewScreen.setLoading true st)), w')).
  { unfold ReviewScreen.loadReviewQuestions, getMissedQuestions. run. rewrite R. reflexivity. }
  split; [exact E |].
  intros st1 w1 L. rewrite E in L. injection L as <- _. split; reflexivity.
Qed.

Lemma loadReviewQuestions_completes_on_failure_witness :
  ReviewScreen.loadReviewQuestions offline ReviewScreen.initial guest
  = Some (ReviewScreen.setLoading false
            (ReviewScreen.setReviewComplete true
               (ReviewScreen.setLoading true ReviewScreen.initial)),
          snd (request offline "/questions/missed" GET guest)).
Proof.
  exact (proj1 (loadReviewQuestions_completes_on_failure
                  offline ReviewScreen.initial guest _ _ eq_refl)).
Defined.

(** X24. The review screen never shows a question that is not there:
    once the questions are loaded from the initial state, whatever the user
    does next (selecting, submitting, advancing, in any order and number),
    the index stays inside the list, so the view is the spinner, the
    completion view or a question of the list, never the missing one. *)
Theorem review_never_shows_a_missing_question
    (host : Host) (w w1 : World) (st1 : ReviewScreen.State)
    (events : list ReviewScreen.Event) :
  ReviewScreen.loadReviewQuestions host ReviewScreen.initial w = Some (st1, w1) ->
  let st' := fst (ReviewScreen.session host events st1 w1) in
  index_in_range st' /\ ReviewScreen.render st' <> ReviewScreen.Showing None.
Proof.
  intros L. cbv zeta.
  pose proof (review_load_in_range host ReviewScreen.initial w st1 w1 eq_refl L) as H.
  assert (F : alerts_in_step st1).
  { unfold alerts_in_step.
    rewrite (review_load_scheduled host ReviewScreen.initial w st1 w1 L). constructor. }
  pose proof (review_session_in_range host events st1 w1 (conj H F)) as H'.
  split; [exact H' | apply review_render_in_range; exact H'].
Qed.

Lemma review_never_shows_a_missing_question_witness :
  ReviewScreen.render
    (fst (ReviewScreen.session (replying 200 (Ok (Arr [Obj [("id", Str "q1")]])))
            [ReviewScreen.Next; ReviewScreen.Select "A"; ReviewScreen.Submit; ReviewScreen.Next]
            (ReviewScreen.mkState [Obj [("id", Str "q1")]] 0 None false false false false [] [])
            (snd (request (replying 200 (Ok (Arr [Obj [("id", Str "q1")]])))
                    "/questions/missed" GET guest))))
  <> ReviewScreen.Showing None.
Proof.
  exact (proj2 (review_never_shows_a_missing_question
                  (replying 200 (Ok (Arr [Obj [("id", Str "q1")]]))) guest _ _
                  [ReviewScreen.Next; ReviewScreen.Select "A"; ReviewScreen.Submit;
                   ReviewScreen.Next]
                  eq_refl)).
Defined.

Lemma review_handleNext_step st :
  let n := List.length (ReviewScreen.reviewQuestions st) in
  let i := ReviewScreen.currentQuestionIndex st in
  ReviewScreen.reviewQuestions (ReviewScreen.handleNext st) = ReviewScreen.reviewQuestions st /\
  (i + 1 < n ->
   ReviewScreen.currentQuestionIndex (ReviewScreen.handleNext st) = i + 1 /\
   ReviewScreen.reviewComplete (ReviewScreen.handleNext st) = ReviewScreen.reviewComplete st) /\
  (n <= i + 1 ->
   ReviewScreen.currentQuestionIndex (ReviewScreen.handleNext st) = i /\
   ReviewScreen.reviewComplete (ReviewScreen.handleNext st) = true).
Proof.
  cbv zeta. unfold ReviewScreen.handleNext, ReviewScreen.advance.
  destruct (Z.ltb_spec (Z.of_nat (ReviewScreen.currentQuestionIndex st))
              (Z.of_nat (List.length (ReviewScreen.reviewQuestions st)) - 1)) as [L | L];
    cbn; repeat split; intros; try reflexivity; lia.
Qed.

(** Where a run of the review stands when the alerts' buttons are left
    alone: the footer presses are counted, whatever is selected or
    submitted in between. *)
Lemma review_footer_presses (host : Host) (events : list ReviewScreen.Event) :
  forall (st : ReviewScreen.State) (w : World),
    ReviewScreen.currentQuestionIndex st < List.length (ReviewScreen.reviewQuestions st) ->
    ReviewScreen.alert_presses events = 0 ->
    let n := List.length (ReviewScreen.reviewQuestions st) in
    let i := ReviewScreen.currentQuestionIndex st in
    let k := ReviewScreen.footer_presses events in
    let st' := fst (ReviewScreen.session host events st w) in
    ReviewScreen.currentQuestionIndex st' = Nat.min (i + k) (n - 1) /\
    ReviewScreen.reviewComplete st'
    = (ReviewScreen.reviewComplete st || (n <=? i + k)%nat)%bool /\
    ReviewScreen.reviewQuestions st' = ReviewScreen.reviewQuestions st.
Proof.
  induction events as [| e rest IH]; intros st w I A; cbv zeta.
  - cbn [ReviewScreen.session fst ReviewScreen.footer_presses filter List.length].
    split; [lia |]. split; [| reflexivity].
    destruct (Nat.leb_spec (List.length (ReviewScreen.reviewQuestions st))
                (ReviewScreen.currentQuestionIndex st + 0)); [lia |].
    rewrite orb_false_r. reflexivity.
  - cbn [ReviewScreen.session].
    destruct e as [answer | | | j].
    + cbn [ReviewScreen.handle].
      destruct (review_handleAnswerSelect_keeps answer st) as (Q & J & _).
      destruct (review_handleAnswerSelect_rest answer st) as (C & _).
      specialize (IH (ReviewScreen.handleAnswerSelect answer st) w).
      cbv zeta in IH. rewrite Q, J, C in IH. exact (IH I A).
    + cbn [ReviewScreen.handle].
      destruct (review_handleSubmit_keeps host st w) as (Q & J & _).
      destruct (review_handleSubmit_rest host st w) as (C & _).
      destruct (ReviewScreen.handleSubmit host st w) as [st1 w1]. cbn [fst] in *.
      specialize (IH st1 w1). cbv zeta in IH. rewrite Q, J, C in IH. exact (IH I A).
    + cbn [ReviewScreen.handle].
      change (ReviewScreen.footer_presses (ReviewScreen.Next :: rest))
        with (S (ReviewScreen.footer_presses rest)).
      destruct (review_handleNext_step st) as (Q & Inc & Stop). cbv zeta in Inc, Stop.
      specialize (IH (ReviewScreen.handleNext st) w). cbv zeta in IH. rewrite Q in IH.
      destruct (Nat.lt_ge_cases (ReviewScreen.currentQuestionIndex st + 1)
                  (List.length (ReviewScreen.reviewQuestions st))) as [H | H].
      * destruct (Inc H) as (J & C). rewrite J, C in IH.
        destruct (IH ltac:(lia) A) as (J' & C' & Q').
        split; [rewrite J'; lia |]. split; [| exact Q'].
        rewrite C'. f_equal.
        replace (ReviewScreen.currentQuestionIndex st + 1 + ReviewScreen.footer_presses rest)
          with (ReviewScreen.currentQuestionIndex st + S (ReviewScreen.footer_presses rest))
          by lia.
        reflexivity.
      * destruct (Stop H) as (J & C). rewrite J, C in IH.
        destruct (IH I A) as (J' & C' & Q').
        split; [rewrite J'; lia |]. split; [| exact Q'].
        rewrite C'. cbn [orb].
        destruct (Nat.leb_spec (List.length (ReviewScreen.reviewQuestions st))
                    (ReviewScreen.currentQuestionIndex st
                     + S (ReviewScreen.footer_presses rest))); [| lia].
        rewrite orb_true_r. reflexivity.
    + discriminate A.
Qed.

(** X25. Advancing through a review with the footer button: from
    question [i] of [n], not yet complete, a run of the screen in which
    the footer's 'next' button is pressed [k] times, with any selecting
    and submitting in between and the result alerts' own buttons left
    alone, leads to question [i + k] as long as that is in the list; the
    review is complete exactly once the presses reach the end of the list,
    and the index then stays on the last question, [n - 1] (the figure the
    completion view prints as 'Questions Reviewed'). *)
Theorem review_completes_after_the_last_question
    (host : Host) (events : list ReviewScreen.Event) (st : ReviewScreen.State) (w : World) :
  let n := List.length (ReviewScreen.reviewQuestions st) in
  let i := ReviewScreen.currentQuestionIndex st in
  let k := ReviewScreen.footer_presses events in
  i < n -> ReviewScreen.reviewComplete st = false ->
  ReviewScreen.alert_presses events = 0 ->
  let st' := fst (ReviewScreen.session host events st w) in
  ReviewScreen.currentQuestionIndex st' = Nat.min (i + k) (n - 1) /\
  (ReviewScreen.reviewComplete st' = true <-> n <= i + k) /\
  ReviewScreen.reviewQuestions st' = ReviewScreen.reviewQuestions st.
Proof.
  cbv zeta. intros I C A.
  destruct (review_footer_presses host events st w I A) as (J & C' & Q).
  split; [exact J |]. split; [| exact Q].
  rewrite C', C. cbn [orb]. apply Nat.leb_le.
Qed.

Lemma review_completes_after_the_last_question_witness :
  let host := replying 200 (Ok (Obj [("correct", Bool false)])) in
  let st := ReviewScreen.mkState [Obj [("id", Str "q1")]; Obj [("id", Str "q2")];
                                  Obj [("id", Str "q3")]]
                                 0 None false false false false [] [] in
  let events := [ReviewScreen.Select "A"; ReviewScreen.Submit; ReviewScreen.Next;
                 ReviewScreen.Next; ReviewScreen.Select "B"; ReviewScreen.Next] in
  ReviewScreen.currentQuestionIndex (fst (ReviewScreen.session host events st guest)) = 2 /\
  (ReviewScreen.reviewComplete (fst (ReviewScreen.session host events st guest)) = true
   <-> 3 <= 0 + 3).
Proof.
  cbv zeta.
  pose proof (review_completes_after_the_last_question
                (replying 200 (Ok (Obj [("correct", Bool false)])))
                [ReviewScreen.Select "A"; ReviewScreen.Submit; ReviewScreen.Next;
                 ReviewScreen.Next; ReviewScreen.Select "B"; ReviewScreen.Next]
                (ReviewScreen.mkState [Obj [("id", Str "q1")]; Obj [("id", Str "q2")];
                                       Obj [("id", Str "q3")]]
                                      0 None false false false false [] [])
                guest ltac:(cbn; lia) eq_refl eq_refl) as H.
  split; [exact (proj1 H) | exact (proj1 (proj2 H))].
Defined.

(** The button of a result alert moves on from the question that was
    submitted, not from the one on the screen: when the footer button is
    pressed before the alert's, the two presses together advance by one
    question. *)
Example review_alert_button_uses_the_index_of_its_submission :
  let host := replying 200 (Ok (Obj [("correct", Bool false)])) in
  let st := ReviewScreen.mkState [Obj [("id", Str "q1")]; Obj [("id", Str "q2")];
                                  Obj [("id", Str "q3")]]
                                 0 None false false false false [] [] in
  ReviewScreen.currentQuestionIndex
    (fst (ReviewScreen.session host
            [ReviewScreen.Select "A"; ReviewScreen.Submit; ReviewScreen.Next;
             ReviewScreen.AlertNext 0] st guest)) = 1 /\
  ReviewScreen.currentQuestionIndex
    (fst (ReviewScreen.session host
            [ReviewScreen.Select "A"; ReviewScreen.Submit; ReviewScreen.Next;
             ReviewScreen.Next] st guest)) = 2.
Proof. split; reflexivity. Qed.

(** ** Guests and the sample questions *)

Lemma sample_is_a_question (c : Category) :
  truthy (getSampleQuestion (category_name c)) = true /\
  member (getSampleQuestion (category_name c)) "id"
  = Ok (Str ("sample-" ++ category_name c ++ "-1")).
Proof. destruct c; split; reflexivity. Qed.

(** X26. With the network down, a guest (no truthy token cached) who
    opens a category gets that category's sample question on the question
    screen, with no alert. *)
Theorem guest_offline_gets_the_sample
    (host : Host) (e : Thrown) (now : Z) (c : Category) (a : App) (w : World) :
  network_down host e -> truthy_token (token w) = false ->
  let a' := fst (navigateToQuestion host now (category_name c) a w) in
  currentScreen a' = question_screen /\
  currentQuestion a' = getSampleQuestion (category_name c) /\
  member (currentQuestion a') "type" = Ok (Str (category_name c)) /\
  alerts a' = alerts a.
Proof.
  intros D T. cbv zeta. unfold navigateToQuestion. cbv zeta.
  rewrite generateQuestion_eq, request_eq. cbv zeta. rewrite D.
  cbn [after_fetch token]. rewrite T. cbn [fst g_type currentScreen currentQuestion alerts
    setLoading setCurrentQuestion setQuestionStartTime setShowExplanation setSelectedAnswer
    setCurrentScreen].
  repeat split. apply sample_type.
Qed.

Lemma guest_offline_gets_the_sample_witness :
  currentQuestion (fst (navigateToQuestion offline 0 "flaw" initial_App guest))
  = getSampleQuestion "flaw".
Proof.
  exact (proj1 (proj2 (guest_offline_gets_the_sample
                         offline (Error "Network request failed") 0 flaw initial_App guest
                         (fun _ => eq_refl) eq_refl))).
Defined.

(** X27. An answer to a sample question is posted like any other: for a
    guest looking at the sample of a category with an answer selected,
    [handleSubmit] sends one POST to [/questions/answer] carrying the
    sample's own id ('sample-', the category, '-1'), the answer and the
    response time, and no [Authorization] header. *)
Theorem sample_answers_are_posted
    (host : Host) (now : Z) (c : Category) (answer : string) (a : App) (w : World) :
  currentQuestion a = getSampleQuestion (category_name c) ->
  selectedAnswer a = Some answer -> answer <> "" ->
  truthy_token (token w) = false ->
  sent (snd (handleSubmit host now a w))
  = mkRequest (API_BASE_URL host ++ "/questions/answer") "POST"
      [("Content-Type", "application/json")]
      (Some (Obj [ ("questionId", Str ("sample-" ++ category_name c ++ "-1"));
                   ("userAnswer", Str answer);
                   ("responseTime", Num (round_seconds (now - questionStartTime a))) ]))
    :: sent w.
Proof.
  intros Q S N T. destruct (sample_is_a_question c) as [Tr Id].
  rewrite <- Q in Tr, Id.
  rewrite (handleSubmit_eq host now a w answer S N Tr).
  pose proof (submit_call_world host now a answer w _ Id) as W.
  destruct (submit_call host now a answer w) as [[result | err] w1];
    cbn [snd] in *; rewrite W, request_logs; unfold config;
    fold (config host "/questions/answer" (token w)
            (POST (Some (submit_payload
                           (mkSubmit (Str ("sample-" ++ category_name c ++ "-1")) answer
                              (Some (round_seconds (now - questionStartTime a))))))));
    destruct (token w) as [[| x y] |]; try discriminate T; reflexivity.
Qed.

Lemma sample_answers_are_posted_witness :
  sent (snd (handleSubmit offline 4200 (sample_view (Some "C") false) guest))
  = [ mkRequest "http://127.0.0.1:3000/api/questions/answer" "POST"
        [("Content-Type", "application/json")]
        (Some (Obj [ ("questionId", Str "sample-weaken-1"); ("userAnswer", Str "C");
                     ("responseTime", Num 4) ])) ].
Proof.
  refine (sample_answers_are_posted offline 4200 weaken "C" (sample_view (Some "C") false)
            guest eq_refl eq_refl _ eq_refl).
  discriminate.
Defined.

(** ** Profile and password updates *)

(** X28. A successful [updateProfile] or [changePassword] leaves the
    credential exactly as it was: the token cached and the entry persisted
    are unchanged and the storage is not touched, so the session goes on
    under the same token. Each sends one PUT, to [/auth/profile] and
    [/auth/password], with its two arguments as the body. *)
Theorem profile_updates_keep_the_session
    (host : Host) (x y : string) (w w' : World) (v : Val) :
  (updateProfile host x y w = (Ok v, w') ->
   credential w' = credential w /\ storage_ops w' = storage_ops w /\
   sent w' = config host "/auth/profile" (token w)
               (PUT (Some (Obj [("username", Str x); ("email", Str y)]))) :: sent w) /\
  (changePassword host x y w = (Ok v, w') ->
   credential w' = credential w /\ storage_ops w' = storage_ops w /\
   sent w' = config host "/auth/password" (token w)
               (PUT (Some (Obj [("currentPassword", Str x); ("newPassword", Str y)])))
             :: sent w).
Proof.
  unfold updateProfile, changePassword.
  split; intros R; apply request_ok in R; subst w'; repeat split.
Qed.

Lemma profile_updates_keep_the_session_witness :
  credential (snd (changePassword (replying 200 (Ok (Obj []))) "old" "new" (signed_in "abc")))
  = credential (signed_in "abc").
Proof.
  exact (proj1 (proj2 (profile_updates_keep_the_session
                         (replying 200 (Ok (Obj []))) "old" "new" (signed_in "abc") _ (Obj []))
                  eq_refl)).
Defined.
